(** * 1Password administration scripts: a shallow embedding

    The repository holds three independent Python scripts:
    - [1password_export_users.py]        (module [ExportUsers] below),
    - [1password_export_users_prompt.py] (module [ExportUsersPrompt]),
    - [1password_license_monitor.py]     (module [LicenseMonitor]).

    Each one is a short pipeline: run the [op] command line tool, parse its
    standard output as JSON, then either write a CSV file or post a message
    to a Slack webhook.  The embedding keeps the Python shape of the code:
    values are the values [json.loads] can return, exceptions are data, and
    every effect (printing, reading the keyboard, the environment, files,
    running [op], the HTTP POST) is a step on an explicit [World]. *)

From Stdlib Require Import ZArith Ascii.
From stdpp Require Import gmap strings list pretty.

Set Warnings "-register-all".
Open Scope string_scope.
Open Scope Z_scope.
Open Scope list_scope.

(** ** Python values and exceptions *)

Module Py.

(** The values [json.loads] produces.  A JSON object becomes a [dict]
    with string keys.  Numbers are kept as integers: none of the scripts
    does arithmetic on a decoded number. *)
Inductive pyval : Type :=
| PyNone
| PyBool (b : bool)
| PyInt (z : Z)
| PyStr (s : string)
| PyList (l : list pyval)
| PyDict (d : gmap string pyval).

(** The exception classes the scripts can meet.  All of them derive from
    Python's [Exception]; [JSONDecodeError] derives from [ValueError],
    [FileNotFoundError] and [PermissionError] from [OSError]. *)
Inductive exn : Type :=
| CalledProcessError (returncode : Z) (stderr : string)
| ValueError (msg : string)
| JSONDecodeError (msg : string)
| FileNotFoundError (msg : string)
| PermissionError (msg : string)
| AttributeError (msg : string)
| TypeError (msg : string)
| EOFError
| RequestException (msg : string).

(** [except subprocess.CalledProcessError] *)
Definition is_CalledProcessError (e : exn) : bool :=
  match e with CalledProcessError _ _ => true | _ => false end.

(** [except requests.exceptions.RequestException] *)
Definition is_RequestException (e : exn) : bool :=
  match e with RequestException _ => true | _ => false end.

(** [except Exception]: every class above is a subclass of it. *)
Definition is_Exception (e : exn) : bool := true.

(** [e.stderr] of a [CalledProcessError] (only read in its own handler). *)
Definition exn_stderr (e : exn) : string :=
  match e with CalledProcessError _ err => err | _ => EmptyString end.

(** [str(e)], as the f-strings [{ex}] and [{e}] render it. *)
Definition exn_str (e : exn) : string :=
  match e with
  | CalledProcessError rc _ =>
      "Command '['op', 'user', 'list', '--format', 'json']' returned non-zero exit status "
        +:+ pretty rc +:+ "."
  | ValueError m | JSONDecodeError m | FileNotFoundError m
  | PermissionError m | AttributeError m | TypeError m
  | RequestException m => m
  | EOFError => "EOF when reading a line"
  end.

(** The result of running a piece of Python: a value or a raised
    exception. *)
Inductive outcome (A : Type) : Type :=
| Return (a : A)
| Raise (e : exn).
Arguments Return {A} a.
Arguments Raise {A} e.

Definition bind_outcome {A B} (m : outcome A) (k : A → outcome B) : outcome B :=
  match m with Return a => k a | Raise e => Raise e end.

Definition type_name (v : pyval) : string :=
  match v with
  | PyNone => "NoneType"
  | PyBool _ => "bool"
  | PyInt _ => "int"
  | PyStr _ => "str"
  | PyList _ => "list"
  | PyDict _ => "dict"
  end.

(** Truth value of an object, as [if not users] tests it. *)
Definition truthy (v : pyval) : bool :=
  match v with
  | PyNone => false
  | PyBool b => b
  | PyInt z => negb (z =? 0)
  | PyStr s => negb (String.eqb s EmptyString)
  | PyList l => match l with [] => false | _ :: _ => true end
  | PyDict d => negb (bool_decide (size d = 0%nat))
  end.

(** [v.get(key, default)]: only a [dict] has the method. *)
Definition get (v : pyval) (key : string) (dflt : pyval) : outcome pyval :=
  match v with
  | PyDict d => Return (default dflt (d !! key))
  | _ => Raise (AttributeError
                  ("'" +:+ type_name v +:+ "' object has no attribute 'get'"))
  end.

(** [v in s] for a set [s] of strings: the value is hashed first, which
    fails for lists and dicts; a hashable value that is not a string is
    equal to no member. *)
Definition in_set (v : pyval) (s : gset string) : outcome bool :=
  match v with
  | PyStr x => Return (bool_decide (x ∈ s))
  | PyList _ | PyDict _ =>
      Raise (TypeError ("unhashable type: '" +:+ type_name v +:+ "'"))
  | _ => Return false
  end.

Fixpoint chars (s : string) : list pyval :=
  match s with
  | EmptyString => []
  | String c s' => PyStr (String c EmptyString) :: chars s'
  end.

(** The elements a [for] loop or a generator draws from [v].  A dict
    yields its keys (here in the map's own order, where Python uses
    insertion order). *)
Definition iter (v : pyval) : outcome (list pyval) :=
  match v with
  | PyList l => Return l
  | PyDict d => Return (PyStr <$> (map_to_list d).*1)
  | PyStr s => Return (chars s)
  | _ => Raise (TypeError ("'" +:+ type_name v +:+ "' object is not iterable"))
  end.

(** [len(v)] *)
Definition len (v : pyval) : outcome Z :=
  match v with
  | PyList l => Return (Z.of_nat (length l))
  | PyDict d => Return (Z.of_nat (size d))
  | PyStr s => Return (Z.of_nat (String.length s))
  | _ => Raise (TypeError ("object of type '" +:+ type_name v +:+ "' has no len()"))
  end.


(** *** str.strip()

    A [str] is held as its UTF-8 text, the bytes a token file holds and
    the bytes an environment variable receives.  [strip] works on
    characters, so the text is read one character at a time. *)

(** The characters [str.strip()] removes, by code point: the table of
    CPython's [_PyUnicode_IsWhitespace]. *)
Definition is_whitespace (cp : N) : bool :=
  ((9 <=? cp) && (cp <=? 13) || (28 <=? cp) && (cp <=? 32)
   || (cp =? 133) || (cp =? 160) || (cp =? 5760)
   || (8192 <=? cp) && (cp <=? 8202)
   || (cp =? 8232) || (cp =? 8233) || (cp =? 8239) || (cp =? 8287)
   || (cp =? 12288))%N.

(** A continuation byte of a multi-byte character. *)
Definition continuation (b : ascii) : bool :=
  ((128 <=? N_of_ascii b) && (N_of_ascii b <? 192))%N.

(** The first character of a text and what follows it, for a character
    of one, two or three bytes in its shortest form.  A character of four
    bytes lies beyond U+FFFF, where nothing is whitespace; it is not
    decoded. *)
Definition decode_first (s : string) : option (N * string) :=
  match s with
  | EmptyString => None
  | String b0 s1 =>
      let n0 := N_of_ascii b0 in
      if (n0 <? 128)%N then Some (n0, s1)
      else if ((194 <=? n0) && (n0 <? 224))%N then
        match s1 with
        | String b1 s2 =>
            if continuation b1
            then Some (((n0 - 192) * 64 + (N_of_ascii b1 - 128))%N, s2)
            else None
        | EmptyString => None
        end
      else if ((224 <=? n0) && (n0 <? 240))%N then
        match s1 with
        | String b1 (String b2 s3) =>
            let cp := (((n0 - 224) * 64 + (N_of_ascii b1 - 128)) * 64
                       + (N_of_ascii b2 - 128))%N in
            if continuation b1 && continuation b2 && (2048 <=? cp)%N
               && negb ((55296 <=? cp) && (cp <? 57344))%N
            then Some (cp, s3)
            else None
        | _ => None
        end
      else None
  end.

(** The text after its first character, when that one is whitespace. *)
Definition skip_whitespace (s : string) : option string :=
  match decode_first s with
  | Some (cp, rest) => if is_whitespace cp then Some rest else None
  | None => None
  end.

(** [s.lstrip()]: at most [fuel] whitespace characters are removed; a
    text has no more characters than bytes. *)
Fixpoint lstrip_upto (fuel : nat) (s : string) : string :=
  match fuel with
  | O => s
  | S fuel' =>
      match skip_whitespace s with
      | Some rest => lstrip_upto fuel' rest
      | None => s
      end
  end.

Definition lstrip (s : string) : string := lstrip_upto (String.length s) s.

(** The text holds whitespace only. *)
Definition blank (s : string) : bool :=
  match lstrip s with EmptyString => true | _ => false end.

(** [s.rstrip()]: the text is cut where what remains is whitespace only. *)
Fixpoint rstrip (s : string) : string :=
  match s with
  | EmptyString => EmptyString
  | String c s' => if blank s then EmptyString else String c (rstrip s')
  end.

(** [s.strip()] *)
Definition strip (s : string) : string := rstrip (lstrip s).

End Py.
Export Py.

(** ** The world the scripts run in *)

Module Sys.

(** What launching the [op] command line tool leads to. *)
Inductive proc_outcome : Type :=
| Exited (returncode : Z) (out err : string)
| NotStarted (e : exn).

(** What the webhook endpoint answers to a POST. *)
Inductive http_outcome : Type :=
| Response (status : Z) (reason : string)
| NoResponse (msg : string).

Record World : Type := mkWorld {
  environ : gmap string string;         (* os.environ *)
  files : gmap string string;           (* regular files: path -> text *)
  read_only : gset string;              (* paths that cannot be opened for writing *)
  stdin : list string;                  (* lines waiting on the keyboard *)
  stdout : list string;                 (* what has been printed, oldest first *)
  op_cli : gmap string string → proc_outcome;  (* the [op] tool, run in an environment *)
  op_calls : nat;                       (* how many times [op] has been launched *)
  webhook : string → string → http_outcome;    (* the endpoint: url, text -> answer *)
  posts : list (option string * string) (* calls of requests.post: url, text *)
}.

Definition set_environ (f : gmap string string → gmap string string) (w : World) : World :=
  mkWorld (f (environ w)) (files w) (read_only w) (stdin w) (stdout w)
          (op_cli w) (op_calls w) (webhook w) (posts w).
Definition set_files (f : gmap string string → gmap string string) (w : World) : World :=
  mkWorld (environ w) (f (files w)) (read_only w) (stdin w) (stdout w)
          (op_cli w) (op_calls w) (webhook w) (posts w).
Definition set_stdin (f : list string → list string) (w : World) : World :=
  mkWorld (environ w) (files w) (read_only w) (f (stdin w)) (stdout w)
          (op_cli w) (op_calls w) (webhook w) (posts w).
Definition set_stdout (f : list string → list string) (w : World) : World :=
  mkWorld (environ w) (files w) (read_only w) (stdin w) (f (stdout w))
          (op_cli w) (op_calls w) (webhook w) (posts w).
Definition set_op_calls (f : nat → nat) (w : World) : World :=
  mkWorld (environ w) (files w) (read_only w) (stdin w) (stdout w)
          (op_cli w) (f (op_calls w)) (webhook w) (posts w).
Definition set_posts (f : list (option string * string) → list (option string * string))
    (w : World) : World :=
  mkWorld (environ w) (files w) (read_only w) (stdin w) (stdout w)
          (op_cli w) (op_calls w) (webhook w) (f (posts w)).

(** A Python statement or call: it steps the world and either yields a
    value or raises. *)
Definition py (A : Type) : Type := World → outcome A * World.

Definition ret {A} (a : A) : py A := λ w, (Return a, w).
Definition raise {A} (e : exn) : py A := λ w, (Raise e, w).
Definition bind {A B} (m : py A) (k : A → py B) : py B :=
  λ w, match m w with
       | (Return a, w') => k a w'
       | (Raise e, w') => (Raise e, w')
       end.
(** A pure computation used inside a script. *)
Definition lift {A} (o : outcome A) : py A := λ w, (o, w).

(** One [except] clause: the class test and the handler body. *)
Definition handler (A : Type) : Type := (exn → bool) * (exn → py A).

Fixpoint dispatch {A} (hs : list (handler A)) (e : exn) : py A :=
  match hs with
  | [] => raise e
  | (matches, h) :: hs' => if matches e then h e else dispatch hs' e
  end.

(** [try: body  except C1 as e: h1  except C2 as e: h2 ...]: the first
    clause whose class matches handles the exception; one that no clause
    matches propagates. *)
Definition try_except {A} (body : py A) (hs : list (handler A)) : py A :=
  λ w, match body w with
       | (Return a, w') => (Return a, w')
       | (Raise e, w') => dispatch hs e w'
       end.

Fixpoint for_each {A} (l : list A) (body : A → py unit) : py unit :=
  match l with
  | [] => ret tt
  | x :: l' => bind (body x) (λ _, for_each l' body)
  end.

(** [print(s)] *)
Definition print (s : string) : py unit :=
  λ w, (Return tt, set_stdout (λ o, o ++ [s]) w).

(** [input(prompt)]: shows the prompt, then takes one line. *)
Definition input (prompt : string) : py string :=
  λ w, let w' := set_stdout (λ o, o ++ [prompt]) w in
       match stdin w' with
       | [] => (Raise EOFError, w')
       | line :: rest => (Return line, set_stdin (λ _, rest) w')
       end.

(** [os.getenv(name)] *)
Definition getenv (name : string) : py (option string) :=
  λ w, (Return (environ w !! name), w).

(** [os.environ[name] = value] *)
Definition setenv (name value : string) : py unit :=
  λ w, (Return tt, set_environ (insert name value) w).

(** [os.path.isfile(path)] *)
Definition isfile (path : string) : py bool :=
  λ w, (Return (bool_decide (is_Some (files w !! path))), w).

(** [with open(path, "r") as f: f.read()] *)
Definition read_text (path : string) : py string :=
  λ w, match files w !! path with
       | Some text => (Return text, w)
       | None => (Raise (FileNotFoundError
                           ("[Errno 2] No such file or directory: '" +:+ path +:+ "'")), w)
       end.

(** [open(path, mode="w", ...)]: creates the file or empties it. *)
Definition open_w (path : string) : py unit :=
  λ w, if bool_decide (path ∈ read_only w)
       then (Raise (PermissionError
                      ("[Errno 13] Permission denied: '" +:+ path +:+ "'")), w)
       else (Return tt, set_files (insert path EmptyString) w).

(** [file.write(text)] on a file opened by [open_w]. *)
Definition write (path text : string) : py unit :=
  λ w, (Return tt, set_files (alter (λ old, old +:+ text) path) w).

(** [subprocess.run(["op", "user", "list", "--format", "json"],
    check=True, stdout=PIPE, stderr=PIPE, text=True)], returning
    [result.stdout].  The child inherits the environment; a non-zero exit
    status raises [CalledProcessError] carrying the captured stderr. *)
Definition run_op : py string :=
  λ w, let w' := set_op_calls S w in
       match op_cli w (environ w) with
       | Exited rc out err =>
           if Z.eqb rc 0 then (Return out, w')
           else (Raise (CalledProcessError rc err), w')
       | NotStarted e => (Raise e, w')
       end.

(** [requests.post(url, json={"text": text})] followed by
    [response.raise_for_status()].  Without a URL the library refuses
    the request; a 4xx or 5xx answer is turned into an [HTTPError].  Both
    are [RequestException]s. *)
Definition post_and_check (url : option string) (text : string) : py unit :=
  λ w, let w' := set_posts (λ p, p ++ [(url, text)]) w in
       match url with
       | None =>
           (Raise (RequestException
              "Invalid URL 'None': No scheme supplied. Perhaps you meant https://None?"), w')
       | Some u =>
           match webhook w u text with
           | NoResponse msg => (Raise (RequestException msg), w')
           | Response status reason =>
               if Z.leb 400 status && Z.ltb status 500 then
                 (Raise (RequestException
                    (pretty status +:+ " Client Error: " +:+ reason +:+ " for url: " +:+ u)), w')
               else if Z.leb 500 status && Z.ltb status 600 then
                 (Raise (RequestException
                    (pretty status +:+ " Server Error: " +:+ reason +:+ " for url: " +:+ u)), w')
               else (Return tt, w')
           end
       end.

End Sys.
Export Sys.

Declare Scope py_scope.
Delimit Scope py_scope with py.
Bind Scope py_scope with py.
Notation "x <- m ;; k" := (bind m (λ x, k))
  (at level 20, m at level 99, k at level 200, only parsing) : py_scope.
Notation "m ;; k" := (bind m (λ _, k))
  (at level 100, k at level 200, right associativity, only parsing) : py_scope.
Open Scope py_scope.

(** The two library functions whose text is not part of the repository. *)
Class Library : Type := {
  (** [json.loads]: the decoded value, or the message of the
      [JSONDecodeError] it raises. *)
  json_loads : string → string + pyval;
  (** [csv.writer(file).writerow(cells)]: the line of text written for one
      row, terminator included. *)
  csv_line : list pyval → string
}.

Definition loads `{Library} (text : string) : py pyval :=
  match json_loads text with
  | inr v => ret v
  | inl msg => raise (JSONDecodeError msg)
  end.

(** A line feed, the [\n] of the Python string literals. *)
Definition LF : string := String (ascii_of_nat 10) EmptyString.

(** The name of the credential variable, written out at each use in the
    scripts. *)
Definition OP_SERVICE_ACCOUNT_TOKEN : string := "OP_SERVICE_ACCOUNT_TOKEN".

(** [os.getenv] gives [None] or a [str]. *)
Definition of_env (o : option string) : pyval :=
  match o with Some s => PyStr s | None => PyNone end.

(** ** csv.DictWriter, as far as the exporters use it *)

Module Csv.

(** [DictWriter._dict_to_list] with the defaults [restval=""] and
    [extrasaction="raise"]. *)
Definition dict_to_list (fieldnames : list string) (rowdict : gmap string pyval)
    : outcome (list pyval) :=
  if bool_decide (dom rowdict ⊆ list_to_set fieldnames)
  then Return ((λ k, default (PyStr EmptyString) (rowdict !! k)) <$> fieldnames)
  else Raise (ValueError "dict contains fields not in fieldnames").

Section with_library.
Context `{Library}.

(** [writer.writerow(rowdict)] *)
Definition writerow (path : string) (fieldnames : list string)
    (rowdict : gmap string pyval) : py unit :=
  cells <- lift (dict_to_list fieldnames rowdict) ;;
  write path (csv_line cells).

(** [writer.writeheader()]: the row [dict(zip(fieldnames, fieldnames))]. *)
Definition writeheader (path : string) (fieldnames : list string) : py unit :=
  writerow path fieldnames (list_to_map (zip fieldnames (PyStr <$> fieldnames))).
End with_library.

End Csv.

(** ** 1password_license_monitor.py *)

Module LicenseMonitor.

Definition TOTAL_LICENSES : Z := 3000.

(** The local [active_states] of [count_active_licenses]. *)
Definition active_states : gset string := {[ "ACTIVE"; "RECOVERY_STARTED" ]}.

(** [sum(1 for user in users if user.get("state") in active_states)],
    with the running total [acc] that [sum] keeps. *)
Fixpoint sum_active (acc : Z) (users : list pyval) : outcome Z :=
  match users with
  | [] => Return acc
  | user :: rest =>
      bind_outcome (get user "state" PyNone) (λ state,
      bind_outcome (in_set state active_states) (λ counted,
      sum_active (if counted then acc + 1 else acc) rest))
  end.

Definition count_active_licenses (users : pyval) : outcome Z :=
  bind_outcome (iter users) (sum_active 0).

(** The local [message] of [send_slack_notification]. *)
Definition notification_message (used_licenses total_licenses : Z) : string :=
  if used_licenses >? total_licenses then
    ":rotating_light::1password: *1Password License Alert* :1password::rotating_light:"
      +:+ LF +:+ LF
      +:+ "Used Licenses: " +:+ pretty used_licenses +:+ LF
      +:+ "Total Licenses**: " +:+ pretty total_licenses +:+ LF
      +:+ "Overage: " +:+ pretty (used_licenses - total_licenses) +:+ LF +:+ LF
      +:+ "*Immediate action required to resolve the overage.*"
  else
    ":1password: *1Password License Report* :1password:"
      +:+ LF +:+ LF
      +:+ "Used Licenses: " +:+ pretty used_licenses +:+ LF
      +:+ "Total Licenses: " +:+ pretty total_licenses +:+ LF
      +:+ "Available Licenses: " +:+ pretty (total_licenses - used_licenses) +:+ LF +:+ LF
      +:+ "*All licenses are within the allocated limit.*".

(** [SLACK_WEBHOOK_URL] is the module constant, read from the
    environment when the script is loaded. *)
Definition send_slack_notification (SLACK_WEBHOOK_URL : option string)
    (used_licenses total_licenses : Z) : py unit :=
  let message := notification_message used_licenses total_licenses in
  try_except
    (post_and_check SLACK_WEBHOOK_URL message ;;
     print "Slack notification sent successfully.")
    [(is_RequestException,
      λ e, print ("Error sending Slack notification: " +:+ exn_str e))].

Section with_library.
Context `{Library}.

Definition fetch_users : py pyval :=
  try_except
    (print "Fetching list of users from 1Password..." ;;
     out <- run_op ;;
     users <- loads out ;;
     ret users)
    [(is_CalledProcessError,
      λ e, print ("Error running 'op' command: " +:+ exn_stderr e) ;;
           ret (PyList []))].

Definition main (SLACK_WEBHOOK_URL : option string) : py unit :=
  users <- fetch_users ;;
  if negb (truthy users) then
    print "No users fetched. Exiting."
  else
    used_licenses <- lift (count_active_licenses users) ;;
    print ("Used Licenses: " +:+ pretty used_licenses +:+ "/" +:+ pretty TOTAL_LICENSES) ;;
    send_slack_notification SLACK_WEBHOOK_URL used_licenses TOTAL_LICENSES.

(** The script: the module constants, then [main()]. *)
Definition script : py unit :=
  url <- getenv "SLACK_WEBHOOK_URL" ;;
  main url.
End with_library.

End LicenseMonitor.

(** ** 1password_export_users.py *)

Module ExportUsers.

Definition OUTPUT_CSV : string := "1password_team_users.csv".

Section with_library.
Context `{Library}.

Definition fetch_users : py pyval :=
  try_except
    (token <- getenv OP_SERVICE_ACCOUNT_TOKEN ;;
     (if negb (truthy (of_env token)) then
        raise (ValueError "OP_SERVICE_ACCOUNT_TOKEN environment variable is not set.")
      else ret tt) ;;
     print "Fetching list of users from 1Password..." ;;
     out <- run_op ;;
     users <- loads out ;;
     ret users)
    [(is_CalledProcessError,
      λ e, print ("Error running 'op' command: " +:+ exn_stderr e) ;;
           ret (PyList []));
     (is_Exception,
      λ ex, print ("Error: " +:+ exn_str ex) ;;
            ret (PyList []))].

Definition export_to_csv (users : pyval) : py unit :=
  if negb (truthy users) then
    print "No users found to export."
  else
    n <- lift (len users) ;;
    print ("Exporting " +:+ pretty n +:+ " users to " +:+ OUTPUT_CSV +:+ "...") ;;
    let headers := ["ID"; "Email"; "Name"; "State"] in
    try_except
      (open_w OUTPUT_CSV ;;
       Csv.writeheader OUTPUT_CSV headers ;;
       rows <- lift (iter users) ;;
       for_each rows (λ user,
         id <- lift (get user "id" (PyStr EmptyString)) ;;
         email <- lift (get user "email" (PyStr EmptyString)) ;;
         name <- lift (get user "name" (PyStr EmptyString)) ;;
         state <- lift (get user "state" (PyStr EmptyString)) ;;
         Csv.writerow OUTPUT_CSV headers
           (<["ID" := id]> (<["Email" := email]> (<["Name" := name]>
              (<["State" := state]> ∅))))) ;;
       print ("Successfully exported users to " +:+ OUTPUT_CSV +:+ "."))
      [(is_Exception,
        λ e, print ("Error writing to CSV: " +:+ exn_str e))].

Definition main : py unit :=
  users <- fetch_users ;;
  export_to_csv users.
End with_library.

End ExportUsers.

(** ** 1password_export_users_prompt.py *)

Module ExportUsersPrompt.

Definition OUTPUT_CSV : string := "1password_team_users.csv".

Definition get_token_from_file : py unit :=
  line <- input "Please enter the full path to your 1Password Service Account Token file: " ;;
  let token_path := strip line in
  found <- isfile token_path ;;
  (if negb found then
     raise (FileNotFoundError ("Token file not found at " +:+ token_path))
   else ret tt) ;;
  text <- read_text token_path ;;
  let token := strip text in
  setenv OP_SERVICE_ACCOUNT_TOKEN token ;;
  print "Token has been set from the provided file.".

Section with_library.
Context `{Library}.

Definition fetch_users : py pyval :=
  try_except
    (token <- getenv OP_SERVICE_ACCOUNT_TOKEN ;;
     (if negb (truthy (of_env token)) then
        raise (ValueError "OP_SERVICE_ACCOUNT_TOKEN environment variable is not set.")
      else ret tt) ;;
     print "Fetching list of users from 1Password..." ;;
     out <- run_op ;;
     users <- loads out ;;
     ret users)
    [(is_CalledProcessError,
      λ e, print ("Error running 'op' command: " +:+ exn_stderr e) ;;
           ret (PyList []));
     (is_Exception,
      λ ex, print ("Error: " +:+ exn_str ex) ;;
            ret (PyList []))].

Definition export_to_csv (users : pyval) : py unit :=
  if negb (truthy users) then
    print "No users found to export."
  else
    n <- lift (len users) ;;
    print ("Exporting " +:+ pretty n +:+ " users to " +:+ OUTPUT_CSV +:+ "...") ;;
    let headers := ["ID"; "Email"; "Name"; "State"] in
    try_except
      (open_w OUTPUT_CSV ;;
       Csv.writeheader OUTPUT_CSV headers ;;
       rows <- lift (iter users) ;;
       for_each rows (λ user,
         id <- lift (get user "id" (PyStr EmptyString)) ;;
         email <- lift (get user "email" (PyStr EmptyString)) ;;
         name <- lift (get user "name" (PyStr EmptyString)) ;;
         state <- lift (get user "state" (PyStr EmptyString)) ;;
         Csv.writerow OUTPUT_CSV headers
           (<["ID" := id]> (<["Email" := email]> (<["Name" := name]>
              (<["State" := state]> ∅))))) ;;
       print ("Successfully exported users to " +:+ OUTPUT_CSV +:+ "."))
      [(is_Exception,
        λ e, print ("Error writing to CSV: " +:+ exn_str e))].

Definition main : py unit :=
  try_except
    (get_token_from_file ;;
     users <- fetch_users ;;
     export_to_csv users)
    [(is_Exception,
      λ e, print ("An error occurred: " +:+ exn_str e))].
End with_library.

End ExportUsersPrompt.

(** ** The vocabulary of the specification *)

Definition is_str (v : pyval) : bool :=
  match v with PyStr _ => true | _ => false end.

(** A User Record of the data model: a JSON object whose identifier,
    email, display name and status are strings where they are present. *)
Definition user_record (v : pyval) : bool :=
  match v with
  | PyDict d =>
      forallb (λ k, match d !! k with Some x => is_str x | None => true end)
              ["id"; "email"; "name"; "state"]
  | _ => false
  end.

(** The record's status is exactly the string [s]. *)
Definition has_status (s : string) (v : pyval) : bool :=
  match v with
  | PyDict d => match d !! "state" with
                | Some (PyStr x) => String.eqb x s
                | _ => false
                end
  | _ => false
  end.

(** A record that takes a license: its status is exactly [ACTIVE] or
    exactly [RECOVERY_STARTED]. *)
Definition countable_status (v : pyval) : bool :=
  has_status "ACTIVE" v || has_status "RECOVERY_STARTED" v.

(** The record has no ["state"] key at all. *)
Definition lacks_state (v : pyval) : Prop :=
  match v with PyDict d => d !! "state" = None | _ => False end.

(** The two message variants of the specification, with the three numbers
    each one shows. *)
Definition overage_variant (used total overage : Z) : string :=
  ":rotating_light::1password: *1Password License Alert* :1password::rotating_light:"
    +:+ LF +:+ LF
    +:+ "Used Licenses: " +:+ pretty used +:+ LF
    +:+ "Total Licenses**: " +:+ pretty total +:+ LF
    +:+ "Overage: " +:+ pretty overage +:+ LF +:+ LF
    +:+ "*Immediate action required to resolve the overage.*".

Definition within_limit_variant (used total headroom : Z) : string :=
  ":1password: *1Password License Report* :1password:"
    +:+ LF +:+ LF
    +:+ "Used Licenses: " +:+ pretty used +:+ LF
    +:+ "Total Licenses: " +:+ pretty total +:+ LF
    +:+ "Available Licenses: " +:+ pretty headroom +:+ LF +:+ LF
    +:+ "*All licenses are within the allocated limit.*".

(** Only the overage variant opens with the alarm emoji. *)
Definition is_overage_variant (message : string) : bool :=
  String.prefix ":rotating_light:" message.

(** The world after one more line has been printed. *)
Definition printed (line : string) (w : World) : World :=
  set_stdout (λ o, o ++ [line]) w.

(** The world after [op] has been launched once more. *)
Definition launched (w : World) : World := set_op_calls S w.

(** [os.getenv(name)] is set to a non-empty string. *)
Definition env_set (name : string) (w : World) : Prop :=
  truthy (of_env (environ w !! name)) = true.

(** Unfolding the statements of a script, and reading fields of a world
    that a step has just built. *)
Ltac py_unfold :=
  unfold try_except, bind, ret, raise, lift, print, input, getenv, setenv,
    isfile, read_text, open_w, write, run_op, loads.
Ltac world_simpl :=
  cbn [environ files read_only stdin stdout op_cli op_calls webhook posts
       set_environ set_files set_stdin set_stdout set_op_calls set_posts].

(** What the specification says a file holds: the cell of a record for
    one key, the empty string when the record has no such key. *)
Definition record_field (key : string) (u : pyval) : pyval :=
  match u with
  | PyDict d => match d !! key with Some x => x | None => PyStr EmptyString end
  | _ => PyStr EmptyString
  end.

Definition record_row (u : pyval) : list pyval :=
  [record_field "id" u; record_field "email" u;
   record_field "name" u; record_field "state" u].

Definition header_row : list pyval :=
  [PyStr "ID"; PyStr "Email"; PyStr "Name"; PyStr "State"].

(** The text of a file that holds the given rows, first row first. *)
Definition csv_file `{Library} (rows : list (list pyval)) : string :=
  foldr (λ row rest, csv_line row +:+ rest) EmptyString rows.

(** The world in which [path] holds exactly [text]. *)
Definition with_file (path text : string) (w : World) : World :=
  set_files (insert path text) w.



(** The UTF-8 encoding of a code point. *)
Definition utf8 (cp : N) : string :=
  if (cp <? 128)%N then String (ascii_of_N cp) EmptyString
  else if (cp <? 2048)%N then
    String (ascii_of_N (192 + cp / 64))
      (String (ascii_of_N (128 + cp mod 64)) EmptyString)
  else if (cp <? 65536)%N then
    String (ascii_of_N (224 + cp / 4096))
      (String (ascii_of_N (128 + (cp / 64) mod 64))
         (String (ascii_of_N (128 + cp mod 64)) EmptyString))
  else
    String (ascii_of_N (240 + cp / 262144))
      (String (ascii_of_N (128 + (cp / 4096) mod 64))
         (String (ascii_of_N (128 + (cp / 64) mod 64))
            (String (ascii_of_N (128 + cp mod 64)) EmptyString))).





Definition PROMPT : string :=
  "Please enter the full path to your 1Password Service Account Token file: ".

(** The world once the path has been asked for and typed. *)
Definition asked (rest : list string) (w : World) : World :=
  set_stdin (λ _, rest) (printed PROMPT w).

(** The world after one more call of [requests.post]. *)
Definition posted (url : option string) (text : string) (w : World) : World :=
  set_posts (λ p, p ++ [(url, text)]) w.

Definition is_dict (v : pyval) : bool :=
  match v with PyDict _ => true | _ => false end.

(** A JSON object whose ["state"], if it has one, can be hashed: anything
    but a list or a dict. *)
Definition hashable_state (v : pyval) : bool :=
  match v with
  | PyDict d => match d !! "state" with
                | Some (PyList _) | Some (PyDict _) => false
                | _ => true
                end
  | _ => false
  end.

(** The status codes [raise_for_status] lets through. *)
Definition accepted_status (status : Z) : bool :=
  negb ((400 <=? status) && (status <? 600)).

(** Two worlds hold the same files, except perhaps at [path]. *)
Definition same_files_except (path : string) (w w' : World) : Prop :=
  ∀ p, p ≠ path → files w' !! p = files w !! p.

(** The body of the loop of [export_to_csv], for one element of the list. *)
Definition write_user_row `{Library} (user : pyval) : py unit :=
  id <- lift (get user "id" (PyStr EmptyString)) ;;
  email <- lift (get user "email" (PyStr EmptyString)) ;;
  name <- lift (get user "name" (PyStr EmptyString)) ;;
  state <- lift (get user "state" (PyStr EmptyString)) ;;
  Csv.writerow ExportUsers.OUTPUT_CSV ["ID"; "Email"; "Name"; "State"]
    (<["ID" := id]> (<["Email" := email]> (<["Name" := name]>
       (<["State" := state]> ∅)))).

(** Every run of [m] takes a world to one related to it by [R]. *)
Definition preserves {A} (R : World → World → Prop) (m : py A) : Prop :=
  ∀ w, R w (m w).2.

(** What an exporter may change besides what it prints and the count of
    launches of [op]: the output file, and nothing else. *)
Definition exporter_frame (w w' : World) : Prop :=
  environ w' = environ w ∧ stdin w' = stdin w ∧ read_only w' = read_only w
  ∧ posts w' = posts w
  ∧ same_files_except ExportUsers.OUTPUT_CSV w w'.

(** What the license monitor leaves alone: the environment, the files and
    the keyboard. *)
Definition monitor_frame (w w' : World) : Prop :=
  environ w' = environ w ∧ files w' = files w ∧ stdin w' = stdin w
  ∧ read_only w' = read_only w.

(** What the credential loader leaves alone: the files, the log of POSTs,
    the count of launches and every environment variable but the token. *)
Definition loader_frame (w w' : World) : Prop :=
  files w' = files w ∧ read_only w' = read_only w ∧ posts w' = posts w
  ∧ op_calls w' = op_calls w
  ∧ ∀ name, name ≠ OP_SERVICE_ACCOUNT_TOKEN → environ w' !! name = environ w !! name.

(** The exception [count_active_licenses] meets at an element it cannot
    classify: one that is no JSON object has no [get], and a list or dict
    found under ["state"] cannot be hashed. *)
Definition classify_error (u : pyval) : exn :=
  match u with
  | PyDict d =>
      TypeError ("unhashable type: '"
                   +:+ type_name (default PyNone (d !! "state")) +:+ "'")
  | _ => AttributeError ("'" +:+ type_name u +:+ "' object has no attribute 'get'")
  end.

(** What the interactive variant leaves alone: the log of POSTs, every
    file but the output file and every environment variable but the
    token. *)
Definition prompt_frame (w w' : World) : Prop :=
  posts w' = posts w
  ∧ same_files_except ExportUsers.OUTPUT_CSV w w'
  ∧ ∀ name, name ≠ OP_SERVICE_ACCOUNT_TOKEN → environ w' !! name = environ w !! name.

(** ** Sample data *)

Module Sample.

(** The double quote and the line terminator of the [excel] dialect. *)
Definition DQ : string := String (ascii_of_nat 34) EmptyString.
Definition CRLF : string := String (ascii_of_nat 13) LF.

(** [csv.writer] with the default [excel] dialect: a field is quoted when
    it holds a comma, a quote, a carriage return or a line feed, and a
    quote inside it is doubled. *)
Definition special (c : ascii) : bool :=
  let n := nat_of_ascii c in
  Nat.eqb n 44 || Nat.eqb n 34 || Nat.eqb n 13 || Nat.eqb n 10.

Fixpoint has_special (s : string) : bool :=
  match s with
  | EmptyString => false
  | String c s' => special c || has_special s'
  end.

Fixpoint double_quotes (s : string) : string :=
  match s with
  | EmptyString => EmptyString
  | String c s' =>
      if Nat.eqb (nat_of_ascii c) 34 then String c (String c (double_quotes s'))
      else String c (double_quotes s')
  end.

Definition quote_field (s : string) : string :=
  if has_special s then DQ +:+ double_quotes s +:+ DQ else s.

(** The text of one cell.  A row of a user record holds strings only; the
    [repr] that Python writes for a nested list or dict is not spelled
    out. *)
Definition cell_text (v : pyval) : string :=
  match v with
  | PyNone => EmptyString
  | PyBool true => "True"
  | PyBool false => "False"
  | PyInt z => pretty z
  | PyStr s => quote_field s
  | PyList _ | PyDict _ => quote_field ("<" +:+ type_name v +:+ ">")
  end.

Fixpoint join (sep : string) (l : list string) : string :=
  match l with
  | [] => EmptyString
  | [x] => x
  | x :: rest => x +:+ sep +:+ join sep rest
  end.

Definition excel_line (cells : list pyval) : string :=
  join "," (cell_text <$> cells) +:+ CRLF.

(** The record of the specification's CSV example, and a few more. *)
Definition alice : pyval :=
  PyDict (<["id" := PyStr "1"]> (<["email" := PyStr "a@x.com"]>
         (<["name" := PyStr "A"]> (<["state" := PyStr "ACTIVE"]> ∅)))).
Definition bob : pyval :=
  PyDict (<["id" := PyStr "2"]> (<["email" := PyStr "b@x.com"]>
         (<["name" := PyStr "B"]> (<["state" := PyStr "SUSPENDED"]> ∅)))).
Definition carol : pyval :=
  PyDict (<["id" := PyStr "3"]> (<["state" := PyStr "RECOVERY_STARTED"]> ∅)).
Definition dave : pyval :=
  PyDict (<["id" := PyStr "4"]> (<["name" := PyStr "D"]> ∅)).
Definition erin : pyval :=
  PyDict (<["id" := PyStr "5"]> (<["state" := PyStr "active"]> ∅)).

Definition team : list pyval := [alice; bob; carol; dave; erin].

(** The output of [op user list --format json] for a team of one. *)
Definition alice_json : string :=
  "[{" +:+ DQ +:+ "id" +:+ DQ +:+ ":" +:+ DQ +:+ "1" +:+ DQ +:+ ","
       +:+ DQ +:+ "email" +:+ DQ +:+ ":" +:+ DQ +:+ "a@x.com" +:+ DQ +:+ ","
       +:+ DQ +:+ "name" +:+ DQ +:+ ":" +:+ DQ +:+ "A" +:+ DQ +:+ ","
       +:+ DQ +:+ "state" +:+ DQ +:+ ":" +:+ DQ +:+ "ACTIVE" +:+ DQ +:+ "}]".

(** [json.loads] on the texts used below: the empty array, the team of
    one, and text that is no JSON at all. *)
Definition sample_loads (text : string) : string + pyval :=
  if String.eqb text "[]" then inr (PyList [])
  else if String.eqb text alice_json then inr (PyList [alice])
  else inl "Expecting value: line 1 column 1 (char 0)".

Definition library : Library :=
  {| json_loads := sample_loads; csv_line := excel_line |}.

(** An [op] that knows one user, and refuses to answer without the
    service account token. *)
Definition op_with_token (env : gmap string string) : proc_outcome :=
  match env !! OP_SERVICE_ACCOUNT_TOKEN with
  | Some _ => Exited 0 alice_json EmptyString
  | None => Exited 1 EmptyString "[ERROR] no service account token"
  end.

(** An [op] that exits with status 0 after printing something that is not
    JSON. *)
Definition op_garbled (env : gmap string string) : proc_outcome :=
  Exited 0 "<html>Service Unavailable</html>" EmptyString.

Definition endpoint (url text : string) : http_outcome := Response 200 "OK".

(** A machine with nothing set up. *)
Definition bare : World :=
  mkWorld ∅ ∅ ∅ [] [] op_with_token 0 endpoint [].

(** The same machine with the token and the webhook URL exported. *)
Definition configured : World :=
  set_environ (λ _, <[OP_SERVICE_ACCOUNT_TOKEN := "ops_token"]>
                      (<["SLACK_WEBHOOK_URL" := "https://hooks.example/T0"]> ∅)) bare.

(** A configured machine on which [op] prints garbage. *)
Definition garbled : World :=
  mkWorld (environ configured) ∅ ∅ [] [] op_garbled 0 endpoint [].

(** The user types a path that names nothing. *)
Definition typed_wrong_path : World :=
  set_stdin (λ _, ["  /home/admin/missing.txt "]) bare.

(** The user types the path of a token file. *)
Definition typed_token_path : World :=
  set_stdin (λ _, [" /home/admin/token.txt  "])
    (set_files (insert "/home/admin/token.txt" ("  ops_token" +:+ LF)) bare).


(** An [op] that is not installed. *)
Definition op_missing (env : gmap string string) : proc_outcome :=
  NotStarted (FileNotFoundError "[Errno 2] No such file or directory: 'op'").

(** An [op] that the server turns away. *)
Definition op_denied (env : gmap string string) : proc_outcome :=
  Exited 1 EmptyString "[ERROR] 403: Forbidden".

Definition no_op_installed : World :=
  mkWorld (environ configured) ∅ ∅ [] [] op_missing 0 endpoint [].

Definition denied : World :=
  mkWorld (environ configured) ∅ ∅ [] [] op_denied 0 endpoint [].

(** The token variable is exported, but empty. *)
Definition empty_token : World :=
  set_environ (insert OP_SERVICE_ACCOUNT_TOKEN EmptyString) bare.

(** The output file cannot be written on this machine. *)
Definition locked : World :=
  mkWorld (environ configured) ∅ {[ ExportUsers.OUTPUT_CSV ]} [] []
          op_with_token 0 endpoint [].

(** An older export is lying around, next to another file. *)
Definition with_old_export : World :=
  set_files (λ _, <[ExportUsers.OUTPUT_CSV := "stale"]> (<["notes.txt" := "keep"]> ∅))
    configured.

(** A record with more keys than the export uses, and with a [null]. *)
Definition frank : pyval :=
  PyDict (<["id" := PyStr "6"]> (<["email" := PyNone]> (<["type" := PyStr "MEMBER"]>
         (<["state" := PyStr "ACTIVE"]> ∅)))).

(** Records whose status is not a string. *)
Definition gina : pyval :=
  PyDict (<["id" := PyStr "7"]> (<["state" := PyNone]> ∅)).
Definition hugo : pyval :=
  PyDict (<["id" := PyStr "8"]> (<["state" := PyList [PyStr "ACTIVE"]]> ∅)).

(** Endpoints that answer with a redirect, and with an error. *)
Definition endpoint_moved (url text : string) : http_outcome :=
  Response 302 "Found".
Definition endpoint_gone (url text : string) : http_outcome :=
  Response 404 "Not Found".

Definition moved : World :=
  mkWorld (environ configured) ∅ ∅ [] [] op_with_token 0 endpoint_moved [].
Definition gone : World :=
  mkWorld (environ configured) ∅ ∅ [] [] op_with_token 0 endpoint_gone [].


(** The user types the path of a token file; the webhook URL is exported
    and a note lies next to the token. *)
Definition typed_with_note : World :=
  set_environ (insert "SLACK_WEBHOOK_URL" "https://hooks.example/T0")
    (set_files (insert "notes.txt" "keep") typed_token_path).

End Sample.

(** * Proofs *)

(** ** The license classifier *)

Section classifier.
Import LicenseMonitor.

Lemma in_active_states (x : string) :
  bool_decide (x ∈ active_states)
  = String.eqb x "ACTIVE" || String.eqb x "RECOVERY_STARTED".
Proof.
  unfold active_states.
  destruct (String.eqb_spec x "ACTIVE") as [->|Ha].
  { apply bool_decide_eq_true_2, elem_of_union_l, elem_of_singleton. reflexivity. }
  destruct (String.eqb_spec x "RECOVERY_STARTED") as [->|Hr].
  { apply bool_decide_eq_true_2, elem_of_union_r, elem_of_singleton. reflexivity. }
  apply bool_decide_eq_false_2.
  intros [Hx|Hx]%elem_of_union; apply elem_of_singleton in Hx; contradiction.
Qed.

(** What one turn of the generator does with a user record. *)
Lemma classify_user_record (u : pyval) :
  user_record u = true →
  bind_outcome (get u "state" PyNone) (λ st, in_set st active_states)
  = Return (countable_status u).
Proof.
  destruct u as [| | | |l|d]; try discriminate.
  unfold user_record, countable_status, has_status, get. cbn [forallb bind_outcome].
  intros Hrec. do 3 (apply andb_prop in Hrec as [_ Hrec]).
  apply andb_prop in Hrec as [Hstate _].
  destruct (d !! "state") as [[| | |x| |]|]; try discriminate; cbn; try reflexivity.
  by rewrite in_active_states.
Qed.

Lemma sum_active_user_records (users : list pyval) (acc : Z) :
  Forall (λ u, user_record u = true) users →
  sum_active acc users
  = Return (acc + Z.of_nat (length (List.filter countable_status users))).
Proof.
  intros Hall. revert acc.
  induction Hall as [|u users Hu _ IH]; intros acc.
  - cbn. f_equal. lia.
  - pose proof (classify_user_record u Hu) as Hc.
    cbn [sum_active List.filter].
    destruct (get u "state" PyNone) as [st|e]; [|discriminate].
    cbn [bind_outcome] in *. rewrite Hc. cbn [bind_outcome].
    rewrite IH. destruct (countable_status u); cbn [length]; f_equal; lia.
Qed.

Lemma filter_length_le {A} (f : A → bool) (l : list A) :
  (length (List.filter f l) ≤ length l)%nat.
Proof.
  induction l as [|x l IH]; cbn; [lia|]. destruct (f x); cbn; lia.
Qed.

Lemma lacks_state_not_countable (u : pyval) :
  lacks_state u → countable_status u = false.
Proof.
  destruct u as [| | | | |d]; try done. cbn. intros Hd.
  unfold countable_status, has_status. by rewrite Hd.
Qed.

Lemma count_user_records (users : list pyval) :
  Forall (λ u, user_record u = true) users →
  count_active_licenses (PyList users)
  = Return (Z.of_nat (length (List.filter countable_status users))).
Proof.
  intros Hall. unfold count_active_licenses. cbn [iter bind_outcome].
  by rewrite sum_active_user_records.
Qed.

(** C1. For every list of user records, [count_active_licenses] returns
    the number of records whose status is exactly [ACTIVE] or exactly
    [RECOVERY_STARTED]; for the empty list it returns 0.  It is a plain
    function of the list and yields a count, never an exception, on
    every such list. *)
Theorem count_active_licenses_counts_countable (users : list pyval) :
  Forall (λ u, user_record u = true) users →
  count_active_licenses (PyList users)
  = Return (Z.of_nat (length (List.filter countable_status users)))
  ∧ count_active_licenses (PyList []) = Return 0.
Proof.
  intros Hall. split; [|reflexivity]. by apply count_user_records.
Qed.

(** C9. On a list of user records the count is a non-negative integer,
    at most the length of the list, and a record without a ["state"]
    field adds nothing to it: taking such a record out of the list leaves
    the count as it was. *)
Theorem count_active_licenses_bounded (users : list pyval) :
  Forall (λ u, user_record u = true) users →
  (∃ n : Z, count_active_licenses (PyList users) = Return n
            ∧ 0 ≤ n ≤ Z.of_nat (length users))
  ∧ (∀ before u after,
       users = before ++ u :: after → lacks_state u →
       countable_status u = false
       ∧ count_active_licenses (PyList users)
         = count_active_licenses (PyList (before ++ after))).
Proof.
  intros Hall. split.
  - eexists. split; [by apply count_user_records|].
    pose proof (filter_length_le countable_status users). lia.
  - intros before u after -> Hu.
    pose proof (lacks_state_not_countable u Hu) as Hnc.
    split; [done|].
    assert (Hall' : Forall (λ u, user_record u = true) (before ++ after)).
    { apply Forall_app in Hall as [Hb Ha]. apply Forall_app. split; [done|].
      by inversion Ha. }
    rewrite !count_user_records by done.
    rewrite !List.filter_app. cbn [List.filter]. by rewrite Hnc.
Qed.

End classifier.

(** ** The notifier *)

Section notifier.
Import LicenseMonitor.

Lemma overage_variant_recognised (used total overage : Z) :
  is_overage_variant (overage_variant used total overage) = true.
Proof. reflexivity. Qed.

Lemma within_limit_variant_recognised (used total headroom : Z) :
  is_overage_variant (within_limit_variant used total headroom) = false.
Proof. reflexivity. Qed.

(** Whatever the endpoint answers, [send_slack_notification] calls
    [requests.post] once, with the message as the text of the payload. *)
Lemma send_slack_notification_posts (url : option string) (used total : Z) (w : World) :
  posts (send_slack_notification url used total w).2
  = posts w ++ [(url, notification_message used total)].
Proof.
  unfold send_slack_notification, try_except, bind, post_and_check.
  destruct url as [u|]; [|reflexivity].
  cbn [webhook set_posts].
  destruct (webhook w u _) as [status reason|msg]; [|reflexivity].
  destruct (_ && _); [reflexivity|]. destruct (_ && _); reflexivity.
Qed.

(** C2. For all integers [used] and [total]: when [used > total] the
    message is the overage variant and shows the positive difference
    [used - total]; when [used <= total], equality included, it is the
    within-limit variant and shows the headroom [total - used].  The
    overage variant is chosen exactly when [used > total], and that
    message is what the notifier posts. *)
Theorem notifier_selects_variant (used total : Z) :
  (used > total →
     notification_message used total = overage_variant used total (used - total)
     ∧ 0 < used - total)
  ∧ (used ≤ total →
       notification_message used total = within_limit_variant used total (total - used)
       ∧ 0 ≤ total - used)
  ∧ (is_overage_variant (notification_message used total) = true ↔ used > total)
  ∧ (∀ url w, posts (send_slack_notification url used total w).2
              = posts w ++ [(url, notification_message used total)]).
Proof.
  assert (Hsel : notification_message used total
                 = if used >? total then overage_variant used total (used - total)
                   else within_limit_variant used total (total - used)).
  { unfold notification_message. by destruct (used >? total). }
  split; [|split; [|split]].
  - intros Hgt. rewrite Hsel. destruct (Z.gtb_spec used total); [|lia].
    split; [reflexivity|lia].
  - intros Hle. rewrite Hsel. destruct (Z.gtb_spec used total); [lia|].
    split; [reflexivity|lia].
  - rewrite Hsel. destruct (Z.gtb_spec used total).
    + rewrite overage_variant_recognised. split; [lia|reflexivity].
    + rewrite within_limit_variant_recognised. split; [discriminate|lia].
  - intros url w. apply send_slack_notification_posts.
Qed.

End notifier.

(** ** The fetch step *)

Section fetch.
Context `{Library}.

Lemma prompt_fetch_users_same : ExportUsersPrompt.fetch_users = ExportUsers.fetch_users.
Proof. reflexivity. Qed.


(** The exporters' [fetch_users] with no usable credential: the
    [ValueError] is raised before [op] is launched and the generic
    handler turns it into an empty list. *)
Lemma exporter_fetch_no_credential (w : World) :
  truthy (of_env (environ w !! OP_SERVICE_ACCOUNT_TOKEN)) = false →
  ExportUsers.fetch_users w
  = (Return (PyList []),
     printed "Error: OP_SERVICE_ACCOUNT_TOKEN environment variable is not set." w).
Proof.
  intros Hno. unfold ExportUsers.fetch_users; py_unfold.
  rewrite Hno. reflexivity.
Qed.

(** With a credential, a non-zero exit status of [op]. *)
Lemma exporter_fetch_nonzero_exit (w : World) (rc : Z) (out err : string) :
  env_set OP_SERVICE_ACCOUNT_TOKEN w →
  op_cli w (environ w) = Exited rc out err → rc ≠ 0 →
  ExportUsers.fetch_users w
  = (Return (PyList []),
     printed ("Error running 'op' command: " +:+ err)
       (launched (printed "Fetching list of users from 1Password..." w))).
Proof.
  intros Hset Hop Hrc. unfold ExportUsers.fetch_users; py_unfold.
  rewrite Hset. cbn [negb]. world_simpl. rewrite Hop.
  destruct (Z.eqb_spec rc 0) as [|_]; [contradiction|]. reflexivity.
Qed.

(** With a credential and exit status 0, output that is not JSON. *)
Lemma exporter_fetch_parse_failure (w : World) (out err msg : string) :
  env_set OP_SERVICE_ACCOUNT_TOKEN w →
  op_cli w (environ w) = Exited 0 out err → json_loads out = inl msg →
  ExportUsers.fetch_users w
  = (Return (PyList []),
     printed ("Error: " +:+ msg)
       (launched (printed "Fetching list of users from 1Password..." w))).
Proof.
  intros Hset Hop Hjs. unfold ExportUsers.fetch_users; py_unfold.
  rewrite Hset. cbn [negb]. world_simpl. rewrite Hop. cbn [Z.eqb].
  rewrite Hjs. reflexivity.
Qed.

(** With a credential, exit status 0 and JSON output: the decoded value. *)
Lemma exporter_fetch_success (w : World) (out err : string) (v : pyval) :
  env_set OP_SERVICE_ACCOUNT_TOKEN w →
  op_cli w (environ w) = Exited 0 out err → json_loads out = inr v →
  ExportUsers.fetch_users w
  = (Return v, launched (printed "Fetching list of users from 1Password..." w)).
Proof.
  intros Hset Hop Hjs. unfold ExportUsers.fetch_users; py_unfold.
  rewrite Hset. cbn [negb]. world_simpl. rewrite Hop. cbn [Z.eqb].
  rewrite Hjs. reflexivity.
Qed.

(** No exception leaves the exporters' [fetch_users]. *)
Lemma exporter_fetch_never_raises (w : World) :
  ∃ v w', ExportUsers.fetch_users w = (Return v, w').
Proof.
  unfold ExportUsers.fetch_users; py_unfold.
  destruct (negb (truthy (of_env (environ w !! OP_SERVICE_ACCOUNT_TOKEN))));
    [by eexists _, _|].
  world_simpl.
  destruct (op_cli w (environ w)) as [rc out err|e].
  - destruct (rc =? 0); [|by eexists _, _].
    destruct (json_loads out); by eexists _, _.
  - cbn [dispatch]. destruct (is_CalledProcessError e); by eexists _, _.
Qed.

(** The license monitor's [fetch_users] handles a non-zero exit status
    in the same way. *)
Lemma monitor_fetch_nonzero_exit (w : World) (rc : Z) (out err : string) :
  op_cli w (environ w) = Exited rc out err → rc ≠ 0 →
  LicenseMonitor.fetch_users w
  = (Return (PyList []),
     printed ("Error running 'op' command: " +:+ err)
       (launched (printed "Fetching list of users from 1Password..." w))).
Proof.
  intros Hop Hrc. unfold LicenseMonitor.fetch_users; py_unfold.
  world_simpl. rewrite Hop.
  destruct (Z.eqb_spec rc 0) as [|_]; [contradiction|]. reflexivity.
Qed.

(** It launches [op] whatever the environment holds. *)
Lemma monitor_fetch_launches_op (w : World) :
  op_calls (LicenseMonitor.fetch_users w).2 = S (op_calls w).
Proof.
  unfold LicenseMonitor.fetch_users; py_unfold.
  world_simpl.
  destruct (op_cli w (environ w)) as [rc out err|e].
  - destruct (rc =? 0); [|reflexivity].
    destruct (json_loads out); reflexivity.
  - cbn [dispatch]. destruct (is_CalledProcessError e); reflexivity.
Qed.

(** It never touches the log of POSTs. *)
Lemma monitor_fetch_posts (w : World) :
  posts (LicenseMonitor.fetch_users w).2 = posts w.
Proof.
  unfold LicenseMonitor.fetch_users; py_unfold.
  world_simpl.
  destruct (op_cli w (environ w)) as [rc out err|e].
  - destruct (rc =? 0); [|reflexivity].
    destruct (json_loads out); reflexivity.
  - cbn [dispatch]. destruct (is_CalledProcessError e); reflexivity.
Qed.

(** C3. In the license monitor, when [op] exits with status 0 and its
    output is not JSON, [fetch_users] does not return the empty list:
    the [JSONDecodeError] passes its only [except] clause, leaves
    [fetch_users] and leaves [main]. *)
Theorem monitor_fetch_parse_failure_raises
    (w : World) (out err msg : string) (url : option string) :
  op_cli w (environ w) = Exited 0 out err → json_loads out = inl msg →
  LicenseMonitor.fetch_users w
  = (Raise (JSONDecodeError msg),
     launched (printed "Fetching list of users from 1Password..." w))
  ∧ LicenseMonitor.main url w
    = (Raise (JSONDecodeError msg),
       launched (printed "Fetching list of users from 1Password..." w)).
Proof.
  intros Hop Hjs.
  assert (Hfetch : LicenseMonitor.fetch_users w
                   = (Raise (JSONDecodeError msg),
                      launched (printed "Fetching list of users from 1Password..." w))).
  { unfold LicenseMonitor.fetch_users; py_unfold.
    world_simpl. rewrite Hop. cbn [Z.eqb].
    rewrite Hjs. reflexivity. }
  split; [exact Hfetch|].
  unfold LicenseMonitor.main, bind. by rewrite Hfetch.
Qed.

(** C4, as the code has it.  In the two exporter scripts, when
    [OP_SERVICE_ACCOUNT_TOKEN] is absent from the environment,
    [fetch_users] stops before launching [op]: it prints that the
    variable is not set and returns the empty list, and the run goes on
    to the export step with that list.  The license monitor has no such
    check: its [fetch_users] launches [op] in every environment. *)
Theorem exporter_fetch_missing_credential (w : World) :
  environ w !! OP_SERVICE_ACCOUNT_TOKEN = None →
  let w' := printed "Error: OP_SERVICE_ACCOUNT_TOKEN environment variable is not set." w in
  ExportUsers.fetch_users w = (Return (PyList []), w')
  ∧ ExportUsersPrompt.fetch_users w = (Return (PyList []), w')
  ∧ op_calls w' = op_calls w
  ∧ ExportUsers.main w = (Return tt, printed "No users found to export." w')
  ∧ (users <- ExportUsersPrompt.fetch_users ;; ExportUsersPrompt.export_to_csv users) w
    = (Return tt, printed "No users found to export." w')
  ∧ op_calls (LicenseMonitor.fetch_users w).2 = S (op_calls w).
Proof.
  intros Hnone w'.
  assert (Hfetch : ExportUsers.fetch_users w = (Return (PyList []), w')).
  { apply exporter_fetch_no_credential. by rewrite Hnone. }
  repeat split.
  - exact Hfetch.
  - exact Hfetch.
  - unfold ExportUsers.main, bind. by rewrite Hfetch.
  - unfold bind. rewrite prompt_fetch_users_same, Hfetch. reflexivity.
  - apply monitor_fetch_launches_op.
Qed.

End fetch.

(** ** The CSV exporter *)

Lemma append_nil_r (s : string) : s +:+ EmptyString = s.
Proof.
  induction s as [|c s IH]; [reflexivity|].
  change (String c (s +:+ EmptyString) = String c s). by rewrite IH.
Qed.

Lemma append_assoc (s t u : string) : (s +:+ t) +:+ u = s +:+ (t +:+ u).
Proof.
  induction s as [|c s IH]; [reflexivity|].
  change (String c ((s +:+ t) +:+ u) = String c (s +:+ (t +:+ u))). by rewrite IH.
Qed.

Section exporter.
Context `{Library}.
Import ExportUsers.

Lemma dict_to_list_record_row (a b c d : pyval) :
  Csv.dict_to_list ["ID"; "Email"; "Name"; "State"]
    (<["ID" := a]> (<["Email" := b]> (<["Name" := c]> (<["State" := d]> ∅))))
  = Return [a; b; c; d].
Proof. vm_compute. reflexivity. Qed.

Lemma dict_to_list_header :
  Csv.dict_to_list ["ID"; "Email"; "Name"; "State"]
    (list_to_map (zip ["ID"; "Email"; "Name"; "State"]
                      (PyStr <$> ["ID"; "Email"; "Name"; "State"])))
  = Return header_row.
Proof. vm_compute. reflexivity. Qed.

(** Appending to a file that holds [text]. *)
Lemma write_with_file (path text more : string) (w : World) :
  write path more (with_file path text w)
  = (Return tt, with_file path (text +:+ more) w).
Proof.
  unfold write, with_file, set_files. world_simpl.
  world_simpl. by rewrite alter_insert_eq.
Qed.

(** One turn of the loop on a user record appends the record's row. *)
Lemma export_row_user_record (u : pyval) (text : string) (w : World) :
  user_record u = true →
  (id <- lift (get u "id" (PyStr EmptyString)) ;;
   email <- lift (get u "email" (PyStr EmptyString)) ;;
   name <- lift (get u "name" (PyStr EmptyString)) ;;
   state <- lift (get u "state" (PyStr EmptyString)) ;;
   Csv.writerow OUTPUT_CSV ["ID"; "Email"; "Name"; "State"]
     (<["ID" := id]> (<["Email" := email]> (<["Name" := name]>
        (<["State" := state]> ∅))))) (with_file OUTPUT_CSV text w)
  = (Return tt, with_file OUTPUT_CSV (text +:+ csv_line (record_row u)) w).
Proof.
  destruct u as [| | | | |d]; try discriminate. intros _.
  unfold bind, lift, get, Csv.writerow.
  rewrite dict_to_list_record_row. unfold bind, lift.
  rewrite write_with_file. unfold record_row, record_field, default.
  reflexivity.
Qed.

Lemma export_rows_user_records (users : list pyval) (text : string) (w : World) :
  Forall (λ u, user_record u = true) users →
  for_each users (λ user,
    id <- lift (get user "id" (PyStr EmptyString)) ;;
    email <- lift (get user "email" (PyStr EmptyString)) ;;
    name <- lift (get user "name" (PyStr EmptyString)) ;;
    state <- lift (get user "state" (PyStr EmptyString)) ;;
    Csv.writerow OUTPUT_CSV ["ID"; "Email"; "Name"; "State"]
      (<["ID" := id]> (<["Email" := email]> (<["Name" := name]>
         (<["State" := state]> ∅))))) (with_file OUTPUT_CSV text w)
  = (Return tt, with_file OUTPUT_CSV (text +:+ csv_file (record_row <$> users)) w).
Proof.
  intros Hall. revert text.
  induction Hall as [|u users Hu _ IH]; intros text.
  - cbn [for_each fmap list_fmap csv_file foldr]. by rewrite append_nil_r.
  - cbn [for_each]. unfold bind at 1.
    rewrite (export_row_user_record u text w Hu), IH.
    cbn [fmap list_fmap csv_file foldr]. by rewrite append_assoc.
Qed.

(** C5. For the empty list, [export_to_csv] (the same function in both
    exporter scripts) only prints that there is nothing to export: no
    file is opened, created or changed, and the world is otherwise as it
    was. *)
Theorem export_to_csv_empty_no_write (w : World) :
  ExportUsers.export_to_csv (PyList []) w
  = (Return tt, printed "No users found to export." w)
  ∧ ExportUsersPrompt.export_to_csv (PyList []) w
    = (Return tt, printed "No users found to export." w)
  ∧ files (printed "No users found to export." w) = files w
  ∧ stdout (printed "No users found to export." w)
    = stdout w ++ ["No users found to export."].
Proof. repeat split; reflexivity. Qed.

(** C6. For a non-empty list of user records, when the output file can
    be opened for writing, [export_to_csv] leaves in it the header row
    ID, Email, Name, State, written once, followed by one row per record
    in the order of the list; a row holds the record's id, email, name
    and state, with the empty string for a field the record lacks. *)
Theorem export_to_csv_writes_rows (users : list pyval) (w : World) :
  users ≠ [] →
  Forall (λ u, user_record u = true) users →
  OUTPUT_CSV ∉ read_only w →
  let text := csv_file (header_row :: (record_row <$> users)) in
  let w' :=
    printed "Successfully exported users to 1password_team_users.csv."
      (with_file OUTPUT_CSV text
         (printed ("Exporting " +:+ pretty (Z.of_nat (length users))
                     +:+ " users to 1password_team_users.csv...") w)) in
  ExportUsers.export_to_csv (PyList users) w = (Return tt, w')
  ∧ ExportUsersPrompt.export_to_csv (PyList users) w = (Return tt, w')
  ∧ files w' = <[OUTPUT_CSV := text]> (files w)
  ∧ (∀ u key d, u ∈ users → u = PyDict d → d !! key = None →
       record_field key u = PyStr EmptyString).
Proof.
  intros Hne Hall Hrw text w'.
  assert (Hexp : ExportUsers.export_to_csv (PyList users) w = (Return tt, w')).
  { unfold export_to_csv. destruct users as [|u0 users0]; [done|].
    cbn [truthy negb len]. set (users := u0 :: users0) in *.
    unfold bind at 1, lift at 1.
    unfold bind at 1, print at 1.
    unfold try_except, bind at 1, open_w.
    world_simpl. rewrite bool_decide_eq_false_2 by done.
    unfold bind at 1, Csv.writeheader, Csv.writerow.
    rewrite dict_to_list_header. unfold bind at 1, lift at 1.
    change (set_files (insert OUTPUT_CSV EmptyString) ?w0)
      with (with_file OUTPUT_CSV EmptyString w0).
    rewrite write_with_file.
    unfold bind at 1, lift at 1, iter.
    unfold bind at 1.
    rewrite (export_rows_user_records users _ _ Hall).
    reflexivity. }
  repeat split; try exact Hexp.
  intros u key d _ -> Hd. unfold record_field. by rewrite Hd.
Qed.

(** When the output file cannot be opened, the failure is printed and no
    file changes. *)
Lemma export_to_csv_read_only (users : list pyval) (w : World) :
  users ≠ [] → OUTPUT_CSV ∈ read_only w →
  ∃ w', export_to_csv (PyList users) w = (Return tt, w') ∧ files w' = files w.
Proof.
  intros Hne Hro. unfold export_to_csv. destruct users as [|u0 users0]; [done|].
  cbn [truthy negb len]. unfold try_except, bind, lift, print, open_w.
  world_simpl. rewrite bool_decide_eq_true_2 by done.
  eexists. split; reflexivity.
Qed.

End exporter.

(** ** The credential loader of the interactive variant *)





















Section loader.
Context `{Library}.
Import ExportUsersPrompt.

(** C7. In the interactive variant, when the path typed by the user
    (trimmed) names no existing file, [get_token_from_file] raises
    [FileNotFoundError]; [main] prints the error and ends: [op] is not
    launched, no file is written and the environment is not changed. *)
Theorem missing_token_file_aborts (w : World) (line : string) (rest : list string) :
  stdin w = line :: rest →
  files w !! strip line = None →
  get_token_from_file w
  = (Raise (FileNotFoundError ("Token file not found at " +:+ strip line)),
     asked rest w)
  ∧ main w
    = (Return tt,
       printed ("An error occurred: Token file not found at " +:+ strip line)
         (asked rest w))
  ∧ op_calls (main w).2 = op_calls w
  ∧ files (main w).2 = files w
  ∧ environ (main w).2 = environ w.
Proof.
  intros Hin Hfile.
  assert (Hget : get_token_from_file w
                 = (Raise (FileNotFoundError ("Token file not found at " +:+ strip line)),
                    asked rest w)).
  { unfold get_token_from_file; py_unfold. world_simpl.
    rewrite Hin. world_simpl. rewrite Hfile.
    rewrite bool_decide_eq_false_2 by (by intros [? ?]).
    reflexivity. }
  assert (Hmain : main w
                  = (Return tt,
                     printed ("An error occurred: Token file not found at " +:+ strip line)
                       (asked rest w))).
  { unfold main, try_except. unfold bind at 1. by rewrite Hget. }
  rewrite Hmain. by repeat split.
Qed.


End loader.

(** ** The license monitor's main *)

Section monitor.
Context `{Library}.
Import LicenseMonitor.

(** C10. In the license monitor, when [fetch_users] returns the empty
    list, [main] prints that no users were fetched and returns: no
    count is computed and [requests.post] is not called.  A call of
    [requests.post] during [main] implies that [fetch_users] returned a
    non-empty list. *)
Theorem main_empty_fetch_no_post (url : option string) (w : World) :
  (∀ w1, fetch_users w = (Return (PyList []), w1) →
         main url w = (Return tt, printed "No users fetched. Exiting." w1)
         ∧ posts (main url w).2 = posts w)
  ∧ (posts (main url w).2 ≠ posts w →
     ∃ users w1, fetch_users w = (Return (PyList users), w1) ∧ users ≠ []).
Proof.
  pose proof (monitor_fetch_posts w) as Hposts.
  split.
  - intros w1 Hfetch. rewrite Hfetch in Hposts. cbn [snd] in Hposts.
    assert (Hmain : main url w = (Return tt, printed "No users fetched. Exiting." w1)).
    { unfold main. unfold bind at 1. by rewrite Hfetch. }
    split; [exact Hmain|]. rewrite Hmain. exact Hposts.
  - unfold main. unfold bind at 1.
    destruct (fetch_users w) as [[v|e] w1]; cbn [snd] in Hposts;
      [|by intros Hne; cbn [snd] in Hne].
    destruct (truthy v) eqn:Htruthy; cbn [negb];
      [|by intros Hne; cbn [snd] in Hne; rewrite <-Hposts in Hne].
    destruct v as [|b|z|s|l|d].
    + discriminate.
    + (* a bool is not iterable *)
      cbn. intros Hne. by rewrite Hposts in Hne.
    + (* an int is not iterable *)
      cbn. intros Hne. by rewrite Hposts in Hne.
    + (* a str: its characters have no [get] *)
      destruct s as [|c s]; [discriminate|].
      unfold bind, lift, count_active_licenses.
      cbn [iter chars sum_active get bind_outcome snd].
      intros Hne. by rewrite Hposts in Hne.
    + intros _. exists l, w1. split; [done|]. by destruct l.
    + (* a dict: its keys are strs *)
      unfold bind, lift, count_active_licenses. cbn [iter bind_outcome].
      cbn [truthy] in Htruthy. rewrite <-length_map_to_list in Htruthy.
      destruct (map_to_list d) as [|[k x] kvs]; [discriminate|].
      cbn [fmap list_fmap fst sum_active get bind_outcome snd].
      intros Hne. by rewrite Hposts in Hne.
Qed.

End monitor.

(** ** The theorems at work on the sample data *)

Section examples.
Import Sample.

(** Status matching is case-sensitive, and a missing status counts for
    nothing. *)
Example lower_case_status_not_countable :
  countable_status erin = false ∧ countable_status dave = false
  ∧ countable_status alice = true ∧ countable_status carol = true.
Proof. repeat split; reflexivity. Qed.

Lemma count_active_licenses_counts_countable_witness :
  Forall (λ u, user_record u = true) team
  ∧ (LicenseMonitor.count_active_licenses (PyList team) = Return 2
     ∧ LicenseMonitor.count_active_licenses (PyList []) = Return 0).
Proof.
  split.
  - repeat constructor.
  - apply (count_active_licenses_counts_countable team). repeat constructor.
Defined.

Lemma count_active_licenses_bounded_witness :
  Forall (λ u, user_record u = true) team
  ∧ (∃ n : Z, LicenseMonitor.count_active_licenses (PyList team) = Return n
              ∧ 0 ≤ n ≤ 5)
  ∧ LicenseMonitor.count_active_licenses (PyList team)
    = LicenseMonitor.count_active_licenses (PyList [alice; bob; carol; erin]).
Proof.
  assert (Hall : Forall (λ u, user_record u = true) team) by repeat constructor.
  destruct (count_active_licenses_bounded team Hall) as [Hbound Hout].
  split; [exact Hall|]. split; [exact Hbound|].
  apply (Hout [alice; bob; carol] dave [erin]); reflexivity.
Defined.

Lemma notifier_selects_variant_witness :
  (5 > 3 ∧ LicenseMonitor.notification_message 5 3 = overage_variant 5 3 2)
  ∧ (3 ≤ 5 ∧ LicenseMonitor.notification_message 3 5 = within_limit_variant 3 5 2)
  ∧ (3 ≤ 3 ∧ LicenseMonitor.notification_message 3 3 = within_limit_variant 3 3 0).
Proof.
  destruct (notifier_selects_variant 5 3) as (Hover & _).
  destruct (notifier_selects_variant 3 5) as (_ & Hroom & _).
  destruct (notifier_selects_variant 3 3) as (_ & Hequal & _).
  split; [|split].
  - split; [lia|]. apply Hover. lia.
  - split; [lia|]. apply Hroom. lia.
  - split; [lia|]. apply Hequal. lia.
Defined.

Lemma monitor_fetch_parse_failure_raises_witness :
  op_cli garbled (environ garbled)
  = Exited 0 "<html>Service Unavailable</html>" EmptyString
  ∧ @json_loads library "<html>Service Unavailable</html>"
    = inl "Expecting value: line 1 column 1 (char 0)"
  ∧ @LicenseMonitor.fetch_users library garbled
    = (Raise (JSONDecodeError "Expecting value: line 1 column 1 (char 0)"),
       launched (printed "Fetching list of users from 1Password..." garbled))
  ∧ @LicenseMonitor.main library (Some "https://hooks.example/T0") garbled
    = (Raise (JSONDecodeError "Expecting value: line 1 column 1 (char 0)"),
       launched (printed "Fetching list of users from 1Password..." garbled)).
Proof.
  split; [reflexivity|]. split; [reflexivity|].
  apply (@monitor_fetch_parse_failure_raises library garbled
           "<html>Service Unavailable</html>" EmptyString
           "Expecting value: line 1 column 1 (char 0)"); reflexivity.
Defined.

(** The same garbage leaves the exporter with an empty list. *)
Example exporter_fetch_garbled :
  ∃ w', @ExportUsers.fetch_users library garbled = (Return (PyList []), w')
        ∧ stdout w' = ["Fetching list of users from 1Password...";
                       "Error: Expecting value: line 1 column 1 (char 0)"].
Proof. eexists. split; vm_compute; reflexivity. Qed.

(** The license monitor does not stop short: on a machine without
    [OP_SERVICE_ACCOUNT_TOKEN] its [fetch_users] launches [op] all the
    same, and what it prints is the tool's own complaint. *)
Lemma monitor_fetch_without_credential_launches_op :
  environ bare !! OP_SERVICE_ACCOUNT_TOKEN = None
  ∧ op_calls (@LicenseMonitor.fetch_users library bare).2 ≠ op_calls bare
  ∧ stdout (@LicenseMonitor.fetch_users library bare).2
    = ["Fetching list of users from 1Password...";
       "Error running 'op' command: [ERROR] no service account token"].
Proof.
  split; [reflexivity|]. split; [|vm_compute; reflexivity].
  vm_compute. discriminate.
Qed.

Lemma exporter_fetch_missing_credential_witness :
  environ bare !! OP_SERVICE_ACCOUNT_TOKEN = None
  ∧ @ExportUsers.fetch_users library bare
    = (Return (PyList []),
       printed "Error: OP_SERVICE_ACCOUNT_TOKEN environment variable is not set." bare)
  ∧ op_calls (printed "Error: OP_SERVICE_ACCOUNT_TOKEN environment variable is not set."
                bare) = op_calls bare
  ∧ op_calls (@LicenseMonitor.fetch_users library bare).2 = S (op_calls bare).
Proof.
  assert (Hnone : environ bare !! OP_SERVICE_ACCOUNT_TOKEN = None) by reflexivity.
  destruct (@exporter_fetch_missing_credential library bare Hnone)
    as (Hfetch & _ & Hcalls & _ & _ & Hmonitor).
  split; [exact Hnone|]. split; [exact Hfetch|]. split; [exact Hcalls|exact Hmonitor].
Defined.

(** The CSV example of the specification: one record, two lines. *)
Lemma export_to_csv_writes_rows_witness :
  [alice] ≠ []
  ∧ Forall (λ u, user_record u = true) [alice]
  ∧ (ExportUsers.OUTPUT_CSV ∉ read_only configured)
  ∧ files (@ExportUsers.export_to_csv library (PyList [alice]) configured).2
      !! ExportUsers.OUTPUT_CSV
    = Some ("ID,Email,Name,State" +:+ CRLF +:+ "1,a@x.com,A,ACTIVE" +:+ CRLF).
Proof.
  assert (Hne : [alice] ≠ []) by discriminate.
  assert (Hall : Forall (λ u, user_record u = true) [alice]) by repeat constructor.
  assert (Hrw : ExportUsers.OUTPUT_CSV ∉ read_only configured)
    by apply not_elem_of_empty.
  destruct (@export_to_csv_writes_rows library [alice] configured Hne Hall Hrw)
    as (Hexport & _ & Hfiles & _).
  split; [exact Hne|]. split; [exact Hall|]. split; [exact Hrw|].
  rewrite Hexport. cbn [snd]. rewrite Hfiles, lookup_insert_eq. reflexivity.
Defined.

Lemma missing_token_file_aborts_witness :
  stdin typed_wrong_path = ["  /home/admin/missing.txt "]
  ∧ files typed_wrong_path !! strip "  /home/admin/missing.txt " = None
  ∧ @ExportUsersPrompt.main library typed_wrong_path
    = (Return tt,
       printed "An error occurred: Token file not found at /home/admin/missing.txt"
         (asked [] typed_wrong_path))
  ∧ op_calls (@ExportUsersPrompt.main library typed_wrong_path).2 = 0%nat
  ∧ files (@ExportUsersPrompt.main library typed_wrong_path).2 = ∅.
Proof.
  assert (Hin : stdin typed_wrong_path = ["  /home/admin/missing.txt "]) by reflexivity.
  assert (Hfile : files typed_wrong_path !! strip "  /home/admin/missing.txt " = None)
    by reflexivity.
  destruct (@missing_token_file_aborts library typed_wrong_path _ _ Hin Hfile)
    as (_ & Hmain & Hcalls & Hfiles & _).
  split; [exact Hin|]. split; [exact Hfile|].
  split; [exact Hmain|]. split; [exact Hcalls|exact Hfiles].
Defined.

(** [strip] on text that is not ASCII: whitespace of any width goes
    from both ends, whitespace inside stays, and so do the bytes of a
    character that merely share a byte with a whitespace character. *)
Example strip_unicode_whitespace :
  strip (utf8 8232 +:+ " " +:+ utf8 160 +:+ "ops" +:+ utf8 160 +:+ "token"
           +:+ utf8 12288 +:+ CRLF +:+ utf8 133)
  = "ops" +:+ utf8 160 +:+ "token"
  ∧ strip (utf8 224 +:+ "ops" +:+ utf8 8364) = utf8 224 +:+ "ops" +:+ utf8 8364
  ∧ strip (utf8 160 +:+ LF) = EmptyString.
Proof. repeat split; vm_compute; reflexivity. Qed.


Lemma main_empty_fetch_no_post_witness :
  (@LicenseMonitor.fetch_users library bare
   = (Return (PyList []),
      printed "Error running 'op' command: [ERROR] no service account token"
        (launched (printed "Fetching list of users from 1Password..." bare)))
   ∧ posts (@LicenseMonitor.main library None bare).2 = posts bare)
  ∧ (posts (@LicenseMonitor.main library (Some "https://hooks.example/T0") configured).2
     ≠ posts configured
     ∧ ∃ users w1, @LicenseMonitor.fetch_users library configured
                   = (Return (PyList users), w1) ∧ users ≠ []).
Proof.
  split.
  - assert (Hfetch : @LicenseMonitor.fetch_users library bare
      = (Return (PyList []),
         printed "Error running 'op' command: [ERROR] no service account token"
           (launched (printed "Fetching list of users from 1Password..." bare))))
      by reflexivity.
    split; [exact Hfetch|].
    apply (proj1 (@main_empty_fetch_no_post library None bare) _ Hfetch).
  - assert (Hposted :
      posts (@LicenseMonitor.main library (Some "https://hooks.example/T0") configured).2
      ≠ posts configured) by (vm_compute; discriminate).
    split; [exact Hposted|].
    apply (proj2 (@main_empty_fetch_no_post library (Some "https://hooks.example/T0")
                    configured) Hposted).
Defined.

End examples.

(** * Further properties of the scripts *)

(** ** More on the fetch step *)

Section fetch_more.
Context `{Library}.

(** X1. Whatever [op] does, the exporters' [fetch_users] returns a value:
    no exception leaves it.  It changes neither the environment, nor a
    file, nor the log of POSTs, and it launches [op] once if
    [OP_SERVICE_ACCOUNT_TOKEN] is set to a non-empty string and not at all
    otherwise. *)
Theorem exporter_fetch_contained (w : World) :
  ∃ v w', ExportUsers.fetch_users w = (Return v, w')
          ∧ ExportUsersPrompt.fetch_users w = (Return v, w')
          ∧ environ w' = environ w ∧ files w' = files w ∧ posts w' = posts w
          ∧ op_calls w'
            = if truthy (of_env (environ w !! OP_SERVICE_ACCOUNT_TOKEN))
              then S (op_calls w) else op_calls w.
Proof.
  unfold ExportUsersPrompt.fetch_users, ExportUsers.fetch_users; py_unfold.
  destruct (truthy (of_env (environ w !! OP_SERVICE_ACCOUNT_TOKEN)));
    cbn [negb]; [|by eexists _, _].
  world_simpl.
  destruct (op_cli w (environ w)) as [rc out err|e].
  - destruct (rc =? 0); [|by eexists _, _].
    destruct (json_loads out); by eexists _, _.
  - cbn [dispatch]. destruct (is_CalledProcessError e); by eexists _, _.
Qed.

(** X2. With the token set, each way the fetch can fail in an exporter
    ends in the empty list and one line of report: the captured stderr
    when [op] exits with a non-zero status, the decoder's message when its
    output is not JSON, the error text when [op] cannot be started. *)
Theorem exporter_fetch_reports_failure (w : World) :
  env_set OP_SERVICE_ACCOUNT_TOKEN w →
  let w1 := launched (printed "Fetching list of users from 1Password..." w) in
  (∀ rc out err, op_cli w (environ w) = Exited rc out err → rc ≠ 0 →
     ExportUsers.fetch_users w
     = (Return (PyList []), printed ("Error running 'op' command: " +:+ err) w1))
  ∧ (∀ out err msg, op_cli w (environ w) = Exited 0 out err →
       json_loads out = inl msg →
       ExportUsers.fetch_users w
       = (Return (PyList []), printed ("Error: " +:+ msg) w1))
  ∧ (∀ msg, op_cli w (environ w) = NotStarted (FileNotFoundError msg) →
       ExportUsers.fetch_users w
       = (Return (PyList []), printed ("Error: " +:+ msg) w1)).
Proof.
  intros Hset w1. split; [|split].
  - intros rc out err Hop Hrc. by apply (exporter_fetch_nonzero_exit w rc out err).
  - intros out err msg Hop Hjs. by apply (exporter_fetch_parse_failure w out err msg).
  - intros msg Hop. unfold ExportUsers.fetch_users; py_unfold.
    rewrite Hset. cbn [negb]. world_simpl. by rewrite Hop.
Qed.

(** X3. A token variable that is set but empty counts as missing: the
    exporters' [fetch_users] reports it as not set and returns the empty
    list without launching [op]. *)
Theorem exporter_fetch_empty_token (w : World) :
  environ w !! OP_SERVICE_ACCOUNT_TOKEN = Some EmptyString →
  ExportUsers.fetch_users w
  = (Return (PyList []),
     printed "Error: OP_SERVICE_ACCOUNT_TOKEN environment variable is not set." w)
  ∧ op_calls (ExportUsers.fetch_users w).2 = op_calls w.
Proof.
  intros Hempty.
  assert (Hfetch : ExportUsers.fetch_users w
                   = (Return (PyList []),
                      printed "Error: OP_SERVICE_ACCOUNT_TOKEN environment variable is not set." w)).
  { apply exporter_fetch_no_credential. by rewrite Hempty. }
  split; [exact Hfetch|]. by rewrite Hfetch.
Qed.

(** X4. When [op] exits with status 0 and prints JSON, [fetch_users]
    returns the decoded value as it is, a list or not, after launching
    [op] once and printing one line; the license monitor does so in any
    environment, the exporters when the token is set. *)
Theorem fetch_success_returns_decoded (w : World) (out err : string) (v : pyval) :
  op_cli w (environ w) = Exited 0 out err →
  json_loads out = inr v →
  let w1 := launched (printed "Fetching list of users from 1Password..." w) in
  LicenseMonitor.fetch_users w = (Return v, w1)
  ∧ (env_set OP_SERVICE_ACCOUNT_TOKEN w →
     ExportUsers.fetch_users w = (Return v, w1)
     ∧ ExportUsersPrompt.fetch_users w = (Return v, w1)).
Proof.
  intros Hop Hjs w1. split.
  - unfold LicenseMonitor.fetch_users; py_unfold. world_simpl.
    rewrite Hop. cbn [Z.eqb]. by rewrite Hjs.
  - intros Hset. split; by apply (exporter_fetch_success w out err v).
Qed.

End fetch_more.

Section fetch_more_examples.
Import Sample.

Lemma exporter_fetch_reports_failure_witness :
  env_set OP_SERVICE_ACCOUNT_TOKEN denied
  ∧ env_set OP_SERVICE_ACCOUNT_TOKEN garbled
  ∧ env_set OP_SERVICE_ACCOUNT_TOKEN no_op_installed
  ∧ @ExportUsers.fetch_users library denied
    = (Return (PyList []),
       printed "Error running 'op' command: [ERROR] 403: Forbidden"
         (launched (printed "Fetching list of users from 1Password..." denied)))
  ∧ @ExportUsers.fetch_users library garbled
    = (Return (PyList []),
       printed "Error: Expecting value: line 1 column 1 (char 0)"
         (launched (printed "Fetching list of users from 1Password..." garbled)))
  ∧ @ExportUsers.fetch_users library no_op_installed
    = (Return (PyList []),
       printed "Error: [Errno 2] No such file or directory: 'op'"
         (launched (printed "Fetching list of users from 1Password..." no_op_installed))).
Proof.
  assert (Hd : env_set OP_SERVICE_ACCOUNT_TOKEN denied) by reflexivity.
  assert (Hg : env_set OP_SERVICE_ACCOUNT_TOKEN garbled) by reflexivity.
  assert (Hn : env_set OP_SERVICE_ACCOUNT_TOKEN no_op_installed) by reflexivity.
  split; [exact Hd|]. split; [exact Hg|]. split; [exact Hn|].
  split; [|split].
  - apply (proj1 (@exporter_fetch_reports_failure library denied Hd)
             1 EmptyString "[ERROR] 403: Forbidden"); [reflexivity|lia].
  - apply (proj1 (proj2 (@exporter_fetch_reports_failure library garbled Hg))
             "<html>Service Unavailable</html>" EmptyString); reflexivity.
  - apply (proj2 (proj2 (@exporter_fetch_reports_failure library no_op_installed Hn))).
    reflexivity.
Defined.

Lemma exporter_fetch_empty_token_witness :
  environ empty_token !! OP_SERVICE_ACCOUNT_TOKEN = Some EmptyString
  ∧ @ExportUsers.fetch_users library empty_token
    = (Return (PyList []),
       printed "Error: OP_SERVICE_ACCOUNT_TOKEN environment variable is not set."
         empty_token)
  ∧ op_calls (@ExportUsers.fetch_users library empty_token).2 = op_calls empty_token.
Proof.
  split; [reflexivity|].
  apply (@exporter_fetch_empty_token library empty_token). reflexivity.
Defined.

Lemma fetch_success_returns_decoded_witness :
  op_cli configured (environ configured) = Exited 0 alice_json EmptyString
  ∧ @json_loads library alice_json = inr (PyList [alice])
  ∧ @LicenseMonitor.fetch_users library configured
    = (Return (PyList [alice]),
       launched (printed "Fetching list of users from 1Password..." configured))
  ∧ (env_set OP_SERVICE_ACCOUNT_TOKEN configured
     ∧ @ExportUsers.fetch_users library configured
       = (Return (PyList [alice]),
          launched (printed "Fetching list of users from 1Password..." configured))).
Proof.
  assert (Hop : op_cli configured (environ configured) = Exited 0 alice_json EmptyString)
    by reflexivity.
  assert (Hjs : @json_loads library alice_json = inr (PyList [alice])) by reflexivity.
  destruct (@fetch_success_returns_decoded library configured _ _ _ Hop Hjs)
    as [Hmonitor Hexporter].
  split; [exact Hop|]. split; [exact Hjs|]. split; [exact Hmonitor|].
  assert (Hset : env_set OP_SERVICE_ACCOUNT_TOKEN configured) by reflexivity.
  split; [exact Hset|]. exact (proj1 (Hexporter Hset)).
Defined.

End fetch_more_examples.

(** ** What a script leaves alone *)

Lemma bind_run {A B} (m : py A) (k : A → py B) (w : World) :
  bind m k w = match m w with
               | (Return a, w') => k a w'
               | (Raise e, w') => (Raise e, w')
               end.
Proof. reflexivity. Qed.

Section frames.
Context (R : World → World → Prop) `{!PreOrder R}.

Lemma preserves_unchanged {A} (m : py A) :
  (∀ w, (m w).2 = w) → preserves R m.
Proof. intros Hm w. by rewrite Hm. Qed.

Lemma preserves_ret {A} (a : A) : preserves R (ret a).
Proof. by apply preserves_unchanged. Qed.

Lemma preserves_raise {A} (e : exn) : preserves R (@raise A e).
Proof. by apply preserves_unchanged. Qed.

Lemma preserves_lift {A} (o : outcome A) : preserves R (lift o).
Proof. by apply preserves_unchanged. Qed.

Lemma preserves_getenv (name : string) : preserves R (getenv name).
Proof. by apply preserves_unchanged. Qed.

Lemma preserves_isfile (path : string) : preserves R (isfile path).
Proof. by apply preserves_unchanged. Qed.

Lemma preserves_read_text (path : string) : preserves R (read_text path).
Proof.
  apply preserves_unchanged. intros w. unfold read_text.
  by destruct (files w !! path).
Qed.

Lemma preserves_loads `{Library} (text : string) : preserves R (loads text).
Proof.
  apply preserves_unchanged. intros w. unfold loads.
  by destruct (json_loads text).
Qed.

Lemma preserves_bind {A B} (m : py A) (k : A → py B) :
  preserves R m → (∀ a, preserves R (k a)) → preserves R (bind m k).
Proof.
  intros Hm Hk w. unfold bind. specialize (Hm w).
  destruct (m w) as [[a|e] w1]; cbn [snd] in *; [|done].
  etrans; [exact Hm|apply Hk].
Qed.

Lemma preserves_dispatch {A} (hs : list (handler A)) (e : exn) :
  Forall (λ h, ∀ e, preserves R (h.2 e)) hs → preserves R (dispatch hs e).
Proof.
  induction 1 as [|[matches h] hs Hh _ IH]; cbn [dispatch].
  - apply preserves_raise.
  - destruct (matches e); [apply Hh|exact IH].
Qed.

Lemma preserves_try_except {A} (body : py A) (hs : list (handler A)) :
  preserves R body → Forall (λ h, ∀ e, preserves R (h.2 e)) hs →
  preserves R (try_except body hs).
Proof.
  intros Hbody Hhs w. unfold try_except. specialize (Hbody w).
  destruct (body w) as [[a|e] w1]; cbn [snd] in *; [done|].
  etrans; [exact Hbody|by apply preserves_dispatch].
Qed.

Lemma preserves_for_each {A} (l : list A) (body : A → py unit) :
  (∀ x, preserves R (body x)) → preserves R (for_each l body).
Proof.
  intros Hbody. induction l as [|x l IH]; cbn [for_each].
  - apply preserves_ret.
  - apply preserves_bind; [apply Hbody|by intros _].
Qed.

End frames.

Global Instance exporter_frame_preorder : PreOrder exporter_frame.
Proof.
  split.
  - by intros w.
  - intros w1 w2 w3 (He & Hs & Hr & Hp & Hf) (He' & Hs' & Hr' & Hp' & Hf').
    repeat split; try congruence.
    intros p Hp0. by rewrite Hf', Hf.
Qed.

Global Instance monitor_frame_preorder : PreOrder monitor_frame.
Proof.
  split.
  - by intros w.
  - intros w1 w2 w3 (He & Hf & Hs & Hr) (He' & Hf' & Hs' & Hr').
    repeat split; congruence.
Qed.

Global Instance loader_frame_preorder : PreOrder loader_frame.
Proof.
  split.
  - by intros w.
  - intros w1 w2 w3 (Hf & Hr & Hp & Hc & He) (Hf' & Hr' & Hp' & Hc' & He').
    repeat split; try congruence.
    intros name Hname. by rewrite He', He.
Qed.

(** Breaking a script into its statements. *)
Ltac frame_apply lem :=
  apply lem; try (match goal with |- PreOrder _ => exact _ end).
Ltac frame_steps :=
  repeat first
    [ frame_apply preserves_ret | frame_apply preserves_raise
    | frame_apply preserves_lift | frame_apply preserves_getenv
    | frame_apply preserves_isfile | frame_apply preserves_read_text
    | frame_apply preserves_loads
    | frame_apply preserves_bind; [|intros ?]
    | frame_apply preserves_for_each; intros ?
    | frame_apply preserves_try_except;
        [|repeat (apply List.Forall_cons; [intros ?; cbn [snd]|]);
          try apply List.Forall_nil]
    | progress (match goal with
                | |- preserves _ (if ?b then _ else _) => destruct b
                end) ].

Section exporter_more.
Context `{Library}.
Import ExportUsers.

Lemma exporter_frame_print (line : string) : preserves exporter_frame (print line).
Proof. intros w. by repeat split. Qed.

Lemma exporter_frame_run_op : preserves exporter_frame run_op.
Proof.
  intros w. unfold run_op. destruct (op_cli w (environ w)) as [rc out err|e];
    [destruct (rc =? 0)|]; by repeat split.
Qed.

Lemma exporter_frame_open_w : preserves exporter_frame (open_w OUTPUT_CSV).
Proof.
  intros w. unfold open_w. destruct (bool_decide _); [by repeat split|].
  repeat split. intros p Hp. cbn. by rewrite lookup_insert_ne.
Qed.

Lemma exporter_frame_write (text : string) :
  preserves exporter_frame (write OUTPUT_CSV text).
Proof.
  intros w. repeat split. intros p Hp. cbn. by rewrite lookup_alter_ne.
Qed.

Lemma exporter_frame_fetch_users : preserves exporter_frame fetch_users.
Proof.
  unfold fetch_users. frame_steps;
    auto using exporter_frame_print, exporter_frame_run_op.
Qed.

Lemma exporter_frame_export_to_csv (users : pyval) :
  preserves exporter_frame (export_to_csv users).
Proof.
  unfold export_to_csv, Csv.writeheader, Csv.writerow. frame_steps;
    auto using exporter_frame_print, exporter_frame_open_w, exporter_frame_write.
Qed.

(** X5. Whatever [op] answers, a run of the exporter script changes no
    environment variable, calls [requests.post] never, and leaves every
    file but [1password_team_users.csv] as it was. *)
Theorem exporter_main_only_writes_output (w : World) :
  environ (main w).2 = environ w
  ∧ posts (main w).2 = posts w
  ∧ ∀ path, path ≠ OUTPUT_CSV → files (main w).2 !! path = files w !! path.
Proof.
  assert (Hmain : preserves exporter_frame main).
  { unfold main. frame_apply preserves_bind;
      [apply exporter_frame_fetch_users|apply exporter_frame_export_to_csv]. }
  destruct (Hmain w) as (He & _ & _ & Hp & Hf). by repeat split.
Qed.

End exporter_more.

Section exporter_rows.
Context `{Library}.
Import ExportUsers.

(** An [except Exception] clause whose body cannot raise stops every
    exception. *)
Lemma try_except_catch_all {A} (body : py A) (h : exn → py A) (w : World) :
  (∀ e w0, ∃ a w', h e w0 = (Return a, w')) →
  ∃ a w', try_except body [(is_Exception, h)] w = (Return a, w').
Proof.
  intros Hh. unfold try_except. destruct (body w) as [[a|e] w1]; [by eexists _, _|].
  cbn [dispatch is_Exception]. apply Hh.
Qed.

(** One turn of the loop on any JSON object. *)
Lemma write_user_row_dict (d : gmap string pyval) (text : string) (w : World) :
  write_user_row (PyDict d) (with_file OUTPUT_CSV text w)
  = (Return tt, with_file OUTPUT_CSV (text +:+ csv_line (record_row (PyDict d))) w).
Proof.
  unfold write_user_row, bind, lift, get, Csv.writerow.
  rewrite dict_to_list_record_row. unfold bind, lift.
  rewrite write_with_file. unfold record_row, record_field, default.
  reflexivity.
Qed.

(** One turn of the loop on anything else. *)
Lemma write_user_row_not_dict (u : pyval) (w : World) :
  is_dict u = false →
  write_user_row u w
  = (Raise (AttributeError ("'" +:+ type_name u +:+ "' object has no attribute 'get'")), w).
Proof. by destruct u. Qed.

Lemma write_user_rows_dicts (users : list pyval) (text : string) (w : World) :
  Forall (λ u, is_dict u = true) users →
  for_each users write_user_row (with_file OUTPUT_CSV text w)
  = (Return tt, with_file OUTPUT_CSV (text +:+ csv_file (record_row <$> users)) w).
Proof.
  intros Hall. revert text.
  induction Hall as [|u users Hu _ IH]; intros text.
  - cbn [for_each fmap list_fmap csv_file foldr]. by rewrite append_nil_r.
  - destruct u as [| | | | |d]; try discriminate.
    cbn [for_each]. unfold bind at 1. rewrite write_user_row_dict, IH.
    cbn [fmap list_fmap csv_file foldr]. by rewrite append_assoc.
Qed.

Lemma write_user_rows_until_bad
    (good : list pyval) (bad : pyval) (rest : list pyval) (text : string) (w : World) :
  Forall (λ u, is_dict u = true) good → is_dict bad = false →
  for_each (good ++ bad :: rest) write_user_row (with_file OUTPUT_CSV text w)
  = (Raise (AttributeError ("'" +:+ type_name bad +:+ "' object has no attribute 'get'")),
     with_file OUTPUT_CSV (text +:+ csv_file (record_row <$> good)) w).
Proof.
  intros Hall Hbad. revert text.
  induction Hall as [|u good Hu _ IH]; intros text.
  - cbn [app for_each fmap list_fmap csv_file foldr]. unfold bind.
    rewrite (write_user_row_not_dict bad _ Hbad). by rewrite append_nil_r.
  - destruct u as [| | | | |d]; try discriminate.
    cbn [app for_each]. unfold bind at 1. rewrite write_user_row_dict, IH.
    cbn [fmap list_fmap csv_file foldr]. by rewrite append_assoc.
Qed.

(** [export_to_csv] on a non-empty list, up to the loop. *)
Lemma export_to_csv_open (users : list pyval) (w : World) :
  users ≠ [] → OUTPUT_CSV ∉ read_only w →
  export_to_csv (PyList users) w
  = match for_each users write_user_row
            (with_file OUTPUT_CSV (csv_line header_row)
               (printed ("Exporting " +:+ pretty (Z.of_nat (length users))
                           +:+ " users to 1password_team_users.csv...") w)) with
    | (Return _, w1) =>
        (Return tt, printed "Successfully exported users to 1password_team_users.csv." w1)
    | (Raise e, w1) =>
        (Return tt, printed ("Error writing to CSV: " +:+ exn_str e) w1)
    end.
Proof.
  intros Hne Hrw. unfold export_to_csv. destruct users as [|u0 users0]; [done|].
  cbn [truthy negb len]. set (users := u0 :: users0) in *.
  unfold bind at 1, lift at 1.
  unfold bind at 1, print at 1.
  unfold try_except, bind at 1, open_w.
  world_simpl. rewrite bool_decide_eq_false_2 by done.
  unfold bind at 1, Csv.writeheader, Csv.writerow.
  rewrite dict_to_list_header. unfold bind at 1, lift at 1.
  change (set_files (insert OUTPUT_CSV EmptyString) ?w0)
    with (with_file OUTPUT_CSV EmptyString w0).
  rewrite write_with_file.
  unfold bind at 1, lift at 1, iter.
  unfold bind at 1.
  change (λ user : pyval, bind _ _) with write_user_row.
  change (EmptyString +:+ csv_line header_row) with (csv_line header_row).
  destruct (for_each users write_user_row _) as [[[]|e] w1]; reflexivity.
Qed.

Lemma export_to_csv_dicts (users : list pyval) (w : World) :
  users ≠ [] → Forall (λ u, is_dict u = true) users → OUTPUT_CSV ∉ read_only w →
  export_to_csv (PyList users) w
  = (Return tt,
     printed "Successfully exported users to 1password_team_users.csv."
       (with_file OUTPUT_CSV (csv_file (header_row :: (record_row <$> users)))
          (printed ("Exporting " +:+ pretty (Z.of_nat (length users))
                      +:+ " users to 1password_team_users.csv...") w))).
Proof.
  intros Hne Hall Hrw. rewrite export_to_csv_open by done.
  by rewrite write_user_rows_dicts.
Qed.

(** X6. When the output file cannot be opened for writing,
    [export_to_csv] on a non-empty list prints the error after the
    announcement and returns: no exception leaves it and no file changes. *)
Theorem export_to_csv_unwritable (users : list pyval) (w : World) :
  users ≠ [] → OUTPUT_CSV ∈ read_only w →
  export_to_csv (PyList users) w
  = (Return tt,
     printed "Error writing to CSV: [Errno 13] Permission denied: '1password_team_users.csv'"
       (printed ("Exporting " +:+ pretty (Z.of_nat (length users))
                   +:+ " users to 1password_team_users.csv...") w))
  ∧ files (export_to_csv (PyList users) w).2 = files w.
Proof.
  intros Hne Hro.
  assert (Hexp : export_to_csv (PyList users) w
    = (Return tt,
       printed "Error writing to CSV: [Errno 13] Permission denied: '1password_team_users.csv'"
         (printed ("Exporting " +:+ pretty (Z.of_nat (length users))
                     +:+ " users to 1password_team_users.csv...") w))).
  { unfold export_to_csv. destruct users as [|u0 users0]; [done|].
    cbn [truthy negb len]. unfold try_except, bind, lift, print, open_w.
    world_simpl. by rewrite bool_decide_eq_true_2 by done. }
  split; [exact Hexp|]. by rewrite Hexp.
Qed.

(** X7. A list whose first element that is not a JSON object comes after
    [good]: the file is left holding the header and the rows of [good]
    only, the [AttributeError] is printed in place of the success line,
    and [export_to_csv] returns normally. *)
Theorem export_to_csv_stops_at_bad_record
    (good : list pyval) (bad : pyval) (rest : list pyval) (w : World) :
  Forall (λ u, is_dict u = true) good → is_dict bad = false →
  OUTPUT_CSV ∉ read_only w →
  export_to_csv (PyList (good ++ bad :: rest)) w
  = (Return tt,
     printed ("Error writing to CSV: '" +:+ type_name bad
                +:+ "' object has no attribute 'get'")
       (with_file OUTPUT_CSV (csv_file (header_row :: (record_row <$> good)))
          (printed ("Exporting " +:+ pretty (Z.of_nat (length (good ++ bad :: rest)))
                      +:+ " users to 1password_team_users.csv...") w))).
Proof.
  intros Hgood Hbad Hrw. rewrite export_to_csv_open by (done || by destruct good).
  by rewrite write_user_rows_until_bad.
Qed.

(** X8. The export does not need user records: for any non-empty list of
    JSON objects it writes the header and one row per object, a row
    holding whatever values the object has under [id], [email], [name] and
    [state] (the empty string for a missing key).  Keys other than these
    four never reach the file. *)
Theorem export_to_csv_any_objects (users : list pyval) (w : World) :
  users ≠ [] → Forall (λ u, is_dict u = true) users → OUTPUT_CSV ∉ read_only w →
  files (export_to_csv (PyList users) w).2
  = <[OUTPUT_CSV := csv_file (header_row :: (record_row <$> users))]> (files w)
  ∧ (∀ d key x, key ∉ ["id"; "email"; "name"; "state"] →
       record_row (PyDict (<[key := x]> d)) = record_row (PyDict d)).
Proof.
  intros Hne Hall Hrw. split.
  - by rewrite export_to_csv_dicts.
  - intros d key x Hkey. unfold record_row, record_field.
    rewrite !lookup_insert_ne; [done|..]; intros ->; apply Hkey; set_solver.
Qed.

(** X9. [export_to_csv] raises in one case only: a value that is true but
    has no length, that is [True] or a non-zero number.  The [TypeError]
    of [len] then leaves it before anything is printed or opened. *)
Theorem export_to_csv_raises_only_unsized (users : pyval) (w : World) :
  ((∃ e w', export_to_csv users w = (Raise e, w'))
   ↔ users = PyBool true ∨ ∃ z, z ≠ 0 ∧ users = PyInt z)
  ∧ (users = PyBool true ∨ (∃ z, z ≠ 0 ∧ users = PyInt z) →
     export_to_csv users w
     = (Raise (TypeError ("object of type '" +:+ type_name users +:+ "' has no len()")), w)).
Proof.
  assert (Hraise : users = PyBool true ∨ (∃ z, z ≠ 0 ∧ users = PyInt z) →
     export_to_csv users w
     = (Raise (TypeError ("object of type '" +:+ type_name users +:+ "' has no len()")), w)).
  { intros [->|(z & Hz & ->)]; [reflexivity|].
    unfold export_to_csv. cbn [truthy]. by destruct (Z.eqb_spec z 0). }
  split; [|exact Hraise]. split; [|intros Hu; rewrite (Hraise Hu); by eexists _, _].
  intros (e & w' & Hexp). revert Hexp. unfold export_to_csv.
  destruct (truthy users) eqn:Htruthy; cbn [negb]; [|discriminate].
  destruct users as [|b|z|s|l|d].
  - discriminate.
  - left. cbn in Htruthy. by rewrite Htruthy.
  - right. exists z. split; [|done]. cbn in Htruthy. by destruct (Z.eqb_spec z 0).
  - unfold bind at 1, lift at 1. cbn [len]. unfold bind at 1, print at 1.
    intros Hexp. exfalso.
    edestruct (try_except_catch_all (A := unit)) as (a & w1 & Hret);
      [|rewrite Hret in Hexp; discriminate].
    intros e0 w0. by eexists _, _.
  - unfold bind at 1, lift at 1. cbn [len]. unfold bind at 1, print at 1.
    intros Hexp. exfalso.
    edestruct (try_except_catch_all (A := unit)) as (a & w1 & Hret);
      [|rewrite Hret in Hexp; discriminate].
    intros e0 w0. by eexists _, _.
  - unfold bind at 1, lift at 1. cbn [len]. unfold bind at 1, print at 1.
    intros Hexp. exfalso.
    edestruct (try_except_catch_all (A := unit)) as (a & w1 & Hret);
      [|rewrite Hret in Hexp; discriminate].
    intros e0 w0. by eexists _, _.
Qed.

(** X10. Exporting the same list a second time leaves the files as the
    first export left them: the output file is written afresh, not added
    to. *)
Theorem export_to_csv_twice (users : list pyval) (w : World) :
  users ≠ [] → Forall (λ u, is_dict u = true) users → OUTPUT_CSV ∉ read_only w →
  files ((export_to_csv (PyList users) ;; export_to_csv (PyList users)) w).2
  = files (export_to_csv (PyList users) w).2.
Proof.
  intros Hne Hall Hrw. unfold bind.
  rewrite (export_to_csv_dicts users w) by done.
  rewrite export_to_csv_dicts by done.
  cbn. by rewrite insert_insert_eq.
Qed.

(** X11. The exporter script from end to end: with the token set, [op]
    exiting with status 0 and printing a non-empty JSON array of objects,
    and a writable output file, [main] launches [op] once, writes the
    header and one row per object, and prints its three lines. *)
Theorem exporter_main_exports (w : World) (out err : string) (users : list pyval) :
  env_set OP_SERVICE_ACCOUNT_TOKEN w →
  op_cli w (environ w) = Exited 0 out err →
  json_loads out = inr (PyList users) →
  users ≠ [] → Forall (λ u, is_dict u = true) users →
  OUTPUT_CSV ∉ read_only w →
  files (main w).2
  = <[OUTPUT_CSV := csv_file (header_row :: (record_row <$> users))]> (files w)
  ∧ op_calls (main w).2 = S (op_calls w)
  ∧ stdout (main w).2
    = stdout w ++ ["Fetching list of users from 1Password...";
                   "Exporting " +:+ pretty (Z.of_nat (length users))
                     +:+ " users to 1password_team_users.csv...";
                   "Successfully exported users to 1password_team_users.csv."].
Proof.
  intros Hset Hop Hjs Hne Hall Hrw. unfold main, bind.
  rewrite (exporter_fetch_success w out err (PyList users)) by done.
  rewrite export_to_csv_dicts by done.
  cbn. repeat split. by rewrite <-!app_assoc.
Qed.

End exporter_rows.

(** ** More on the license monitor *)

Section monitor_more.
Import LicenseMonitor.

(** One turn of the generator on an object with a hashable status. *)
Lemma classify_hashable (u : pyval) :
  hashable_state u = true →
  bind_outcome (get u "state" PyNone) (λ st, in_set st active_states)
  = Return (countable_status u).
Proof.
  destruct u as [| | | | |d]; try discriminate.
  unfold hashable_state, countable_status, has_status, get. cbn [bind_outcome].
  destruct (d !! "state") as [[| | |x| |]|]; try discriminate; cbn; try reflexivity.
  by rewrite in_active_states.
Qed.

(** One turn of the generator on anything else. *)
Lemma classify_unhashable (u : pyval) :
  hashable_state u = false →
  bind_outcome (get u "state" PyNone) (λ st, in_set st active_states)
  = Raise (classify_error u).
Proof.
  destruct u as [| | | | |d]; try reflexivity.
  unfold hashable_state, classify_error, get. cbn [bind_outcome].
  by destruct (d !! "state") as [[| | |x| |]|].
Qed.

Lemma sum_active_step (acc : Z) (u : pyval) (rest : list pyval) :
  sum_active acc (u :: rest)
  = bind_outcome (bind_outcome (get u "state" PyNone) (λ st, in_set st active_states))
      (λ counted, sum_active (if counted then acc + 1 else acc) rest).
Proof. cbn [sum_active]. by destruct (get u "state" PyNone). Qed.

Lemma sum_active_hashable (users : list pyval) (acc : Z) :
  Forall (λ u, hashable_state u = true) users →
  sum_active acc users
  = Return (acc + Z.of_nat (length (List.filter countable_status users))).
Proof.
  intros Hall. revert acc.
  induction Hall as [|u users Hu _ IH]; intros acc.
  - cbn. f_equal. lia.
  - rewrite sum_active_step, (classify_hashable u Hu). cbn [bind_outcome List.filter].
    rewrite IH. destruct (countable_status u); cbn [length]; f_equal; lia.
Qed.

Lemma sum_active_until_bad (good : list pyval) (bad : pyval) (rest : list pyval) (acc : Z) :
  Forall (λ u, hashable_state u = true) good → hashable_state bad = false →
  sum_active acc (good ++ bad :: rest) = Raise (classify_error bad).
Proof.
  intros Hall Hbad. revert acc.
  induction Hall as [|u good Hu _ IH]; intros acc; cbn [app].
  - by rewrite sum_active_step, (classify_unhashable bad Hbad).
  - rewrite sum_active_step, (classify_hashable u Hu). cbn [bind_outcome]. apply IH.
Qed.

Lemma count_hashable (users : list pyval) :
  Forall (λ u, hashable_state u = true) users →
  count_active_licenses (PyList users)
  = Return (Z.of_nat (length (List.filter countable_status users))).
Proof.
  intros Hall. unfold count_active_licenses. cbn [iter bind_outcome].
  by rewrite sum_active_hashable.
Qed.

Lemma filter_length_Permutation {A} (f : A → bool) (l l' : list A) :
  l ≡ₚ l' → length (List.filter f l) = length (List.filter f l').
Proof.
  induction 1 as [|x l l' _ IH|x y l|l l' l'' _ IH1 _ IH2]; cbn.
  - done.
  - destruct (f x); cbn; by rewrite IH.
  - by destruct (f x), (f y).
  - by rewrite IH1.
Qed.

(** X13. [count_active_licenses] does not need the status to be a string:
    on any list of JSON objects whose ["state"], if present, is not a
    list or a dict, it returns the number of objects whose status is the
    string [ACTIVE] or [RECOVERY_STARTED].  A [null], boolean or numeric
    status is passed over without an error. *)
Theorem count_active_licenses_any_objects (users : list pyval) :
  Forall (λ u, hashable_state u = true) users →
  count_active_licenses (PyList users)
  = Return (Z.of_nat (length (List.filter countable_status users)))
  ∧ (∀ d x, d !! "state" = Some x → is_str x = false →
       countable_status (PyDict d) = false).
Proof.
  intros Hall. split; [by apply count_hashable|].
  intros d x Hd Hx. unfold countable_status, has_status. rewrite Hd.
  by destruct x.
Qed.

(** X14. At the first element that is no JSON object, or whose
    ["state"] is a list or a dict, [count_active_licenses] raises
    ([AttributeError] for the former, [TypeError] for the latter) and
    returns no count, whatever the elements after it are. *)
Theorem count_active_licenses_raises_at_bad_record
    (good : list pyval) (bad : pyval) (rest : list pyval) :
  Forall (λ u, hashable_state u = true) good → hashable_state bad = false →
  count_active_licenses (PyList (good ++ bad :: rest)) = Raise (classify_error bad).
Proof.
  intros Hall Hbad. unfold count_active_licenses. cbn [iter bind_outcome].
  by apply sum_active_until_bad.
Qed.

(** X15. The count of a concatenation is the sum of the counts, and the
    count does not depend on the order of the records. *)
Theorem count_active_licenses_additive (users1 users2 : list pyval) :
  Forall (λ u, hashable_state u = true) users1 →
  Forall (λ u, hashable_state u = true) users2 →
  (∃ n1 n2, count_active_licenses (PyList users1) = Return n1
            ∧ count_active_licenses (PyList users2) = Return n2
            ∧ count_active_licenses (PyList (users1 ++ users2)) = Return (n1 + n2))
  ∧ (∀ users, users ≡ₚ users1 →
       count_active_licenses (PyList users) = count_active_licenses (PyList users1)).
Proof.
  intros H1 H2. split.
  - eexists _, _. split; [by apply count_hashable|]. split; [by apply count_hashable|].
    rewrite count_hashable by (by apply Forall_app).
    rewrite List.filter_app, length_app. f_equal. lia.
  - intros users Hperm.
    assert (Hall : Forall (λ u, hashable_state u = true) users) by (by rewrite Hperm).
    rewrite !count_hashable by done.
    by rewrite (filter_length_Permutation _ _ _ Hperm).
Qed.

Lemma notification_message_select (used total : Z) :
  notification_message used total
  = if used >? total then overage_variant used total (used - total)
    else within_limit_variant used total (total - used).
Proof. unfold notification_message. by destruct (used >? total). Qed.

Lemma error_line_not_success (msg : string) :
  "Error sending Slack notification: " +:+ msg ≠ "Slack notification sent successfully.".
Proof. intros Heq. vm_compute in Heq. discriminate. Qed.

(** [send_slack_notification] returns, with one POST logged and one line
    printed. *)
Lemma send_slack_notification_returns (url : option string) (used total : Z) (w : World) :
  ∃ line, send_slack_notification url used total w
          = (Return tt, printed line (posted url (notification_message used total) w)).
Proof.
  unfold send_slack_notification, try_except, bind, post_and_check.
  destruct url as [u|]; [|by eexists].
  cbn [webhook set_posts].
  destruct (webhook w u _) as [status reason|msg]; [|by eexists].
  destruct (_ && _); [by eexists|]. destruct (_ && _); by eexists.
Qed.

(** X16. [send_slack_notification] never raises: it calls [requests.post]
    once and prints one line.  The line is the success line exactly when
    a URL is configured and the endpoint answers with a status outside
    400-599; a redirect or any other status below 400 passes for
    delivered. *)
Theorem send_slack_notification_outcome
    (url : option string) (used total : Z) (w : World) :
  ∃ line,
    send_slack_notification url used total w
    = (Return tt, printed line (posted url (notification_message used total) w))
    ∧ (line = "Slack notification sent successfully."
       ↔ ∃ u status reason,
           url = Some u
           ∧ webhook w u (notification_message used total) = Response status reason
           ∧ accepted_status status = true).
Proof.
  unfold send_slack_notification, try_except, bind, post_and_check, accepted_status.
  destruct url as [u|].
  2: { eexists. split; [reflexivity|]. split.
       - intros Heq. by apply error_line_not_success in Heq.
       - by intros (u & status & reason & Hu & _). }
  cbn [webhook set_posts].
  destruct (webhook w u _) as [status reason|msg] eqn:Hhook.
  2: { eexists. split; [reflexivity|]. split.
       - intros Heq. by apply error_line_not_success in Heq.
       - intros (u' & status & reason & [= <-] & Hresp & _). congruence. }
  destruct ((400 <=? status) && (status <? 500)) eqn:H4.
  { eexists. split; [reflexivity|]. split.
    - intros Heq. by apply error_line_not_success in Heq.
    - intros (u' & status' & reason' & [= <-] & Hresp & Hacc).
      assert (status' = status) as -> by congruence. lia. }
  destruct ((500 <=? status) && (status <? 600)) eqn:H5.
  { eexists. split; [reflexivity|]. split.
    - intros Heq. by apply error_line_not_success in Heq.
    - intros (u' & status' & reason' & [= <-] & Hresp & Hacc).
      assert (status' = status) as -> by congruence. lia. }
  eexists. split; [reflexivity|]. split; [|done].
  intros _. exists u, status, reason. repeat split; [done|]. lia.
Qed.

Section with_library.
Context `{Library}.

(** X17. The license monitor from end to end: when [op] exits with status
    0 and prints a non-empty JSON array of objects with hashable statuses,
    [main] launches [op] once, prints the count against 3000 and posts
    one message for that count; the message is the alert exactly when
    more than 3000 records are countable. *)
Theorem monitor_main_notifies
    (url : option string) (w : World) (out err : string) (users : list pyval) :
  op_cli w (environ w) = Exited 0 out err →
  json_loads out = inr (PyList users) →
  users ≠ [] → Forall (λ u, hashable_state u = true) users →
  let n := Z.of_nat (length (List.filter countable_status users)) in
  (∃ line, main url w
           = (Return tt,
              printed line
                (posted url (notification_message n TOTAL_LICENSES)
                   (printed ("Used Licenses: " +:+ pretty n +:+ "/3000")
                      (launched (printed "Fetching list of users from 1Password..." w))))))
  ∧ (is_overage_variant (notification_message n TOTAL_LICENSES) = true ↔ n > 3000).
Proof.
  intros Hop Hjs Hne Hall n. split.
  - unfold main. unfold bind at 1.
    assert (Hfetch : fetch_users w
                     = (Return (PyList users),
                        launched (printed "Fetching list of users from 1Password..." w))).
    { unfold fetch_users; py_unfold. world_simpl.
      rewrite Hop. cbn [Z.eqb]. by rewrite Hjs. }
    rewrite Hfetch. destruct users as [|u0 users0]; [done|].
    cbn [truthy negb]. unfold bind at 1, lift at 1.
    rewrite (count_hashable _ Hall). fold n.
    unfold bind at 1, print at 1.
    destruct (send_slack_notification_returns url n TOTAL_LICENSES
                (set_stdout (λ o, o ++ ["Used Licenses: " +:+ pretty n +:+ "/"
                                          +:+ pretty TOTAL_LICENSES])
                   (launched (printed "Fetching list of users from 1Password..." w))))
      as [line Hsend].
    exists line. rewrite Hsend. reflexivity.
  - rewrite notification_message_select. unfold TOTAL_LICENSES.
    destruct (Z.gtb_spec n 3000).
    + rewrite overage_variant_recognised. split; [lia|done].
    + rewrite within_limit_variant_recognised. split; [discriminate|lia].
Qed.

(** X18. Whatever [op] and the endpoint do, a run of the license
    monitor's [main] launches [op] exactly once, changes no file and no
    environment variable, and calls [requests.post] at most once; when
    [main] ends with an exception, no POST was made. *)
Theorem monitor_main_footprint (url : option string) (w : World) :
  op_calls (main url w).2 = S (op_calls w)
  ∧ files (main url w).2 = files w
  ∧ environ (main url w).2 = environ w
  ∧ (posts (main url w).2 = posts w
     ∨ ∃ text, posts (main url w).2 = posts w ++ [(url, text)])
  ∧ (∀ e w', main url w = (Raise e, w') → posts w' = posts w).
Proof.
  pose proof (monitor_fetch_posts w) as Hposts.
  pose proof (monitor_fetch_launches_op w) as Hcalls.
  assert (Hframe : files (fetch_users w).2 = files w
                   ∧ environ (fetch_users w).2 = environ w).
  { unfold fetch_users; py_unfold. world_simpl.
    destruct (op_cli w (environ w)) as [rc out err|e].
    - destruct (rc =? 0); [|done]. by destruct (json_loads out).
    - cbn [dispatch]. by destruct (is_CalledProcessError e). }
  destruct Hframe as [Hfiles Henv].
  unfold main. rewrite (bind_run fetch_users).
  destruct (fetch_users w) as [[v|e] w1]; cbn [snd] in *.
  2: { split; [done|]. split; [done|]. split; [done|]. split; [by left|].
       by intros e' w' [= _ <-]. }
  destruct (negb (truthy v)).
  { cbn. split; [done|]. split; [done|]. split; [done|]. split; [by left|].
    intros e' w' Hr. discriminate. }
  rewrite (bind_run (lift (count_active_licenses v))). unfold lift.
  destruct (count_active_licenses v) as [n|e].
  2: { cbn. split; [done|]. split; [done|]. split; [done|]. split; [by left|].
       by intros e' w' [= _ <-]. }
  rewrite (bind_run (print _)). unfold print.
  destruct (send_slack_notification_returns url n TOTAL_LICENSES
              (set_stdout (λ o, o ++ ["Used Licenses: " +:+ pretty n +:+ "/"
                                        +:+ pretty TOTAL_LICENSES]) w1))
    as [line Hsend].
  rewrite Hsend. cbn.
  split; [done|]. split; [done|]. split; [done|]. split.
  - right. eexists. by rewrite Hposts.
  - intros e' w' Hr. discriminate.
Qed.

End with_library.

End monitor_more.

(** ** More on the credential loader *)

Lemma loader_frame_prompt_frame (w w' : World) : loader_frame w w' → prompt_frame w w'.
Proof.
  intros (Hf & _ & Hp & _ & He). repeat split; [done| |done].
  intros p _. by rewrite Hf.
Qed.

Lemma exporter_frame_prompt_frame (w w' : World) : exporter_frame w w' → prompt_frame w w'.
Proof.
  intros (He & _ & _ & Hp & Hf). repeat split; [done|done|].
  intros name _. by rewrite He.
Qed.

Global Instance prompt_frame_preorder : PreOrder prompt_frame.
Proof.
  split.
  - by intros w.
  - intros w1 w2 w3 (Hp & Hf & He) (Hp' & Hf' & He').
    repeat split; [congruence| |].
    + intros p Hp0. by rewrite Hf', Hf.
    + intros name Hname. by rewrite He', He.
Qed.

Section loader_more.
Context `{Library}.
Import ExportUsersPrompt.


Lemma loader_frame_get_token : preserves loader_frame get_token_from_file.
Proof.
  unfold get_token_from_file. frame_steps.
  - intros w. unfold input. world_simpl. by destruct (stdin w).
  - intros w. repeat split. intros name Hname. cbn. by rewrite lookup_insert_ne.
  - intros w. by repeat split.
Qed.

(** X19. Whatever is typed and whatever the file holds, the credential
    loader changes no file, launches nothing and posts nothing, and the
    only environment variable it can change is
    [OP_SERVICE_ACCOUNT_TOKEN]. *)
Theorem get_token_from_file_footprint (w : World) :
  files (get_token_from_file w).2 = files w
  ∧ op_calls (get_token_from_file w).2 = op_calls w
  ∧ posts (get_token_from_file w).2 = posts w
  ∧ ∀ name, name ≠ OP_SERVICE_ACCOUNT_TOKEN →
      environ (get_token_from_file w).2 !! name = environ w !! name.
Proof.
  destruct (loader_frame_get_token w) as (Hf & _ & Hp & Hc & He). by repeat split.
Qed.


(** X21. When the input ends at the prompt, the loader raises [EOFError];
    [main] prints it and ends, with the environment, the files and the
    count of launches as they were. *)
Theorem prompt_end_of_input (w : World) :
  stdin w = [] →
  get_token_from_file w = (Raise EOFError, printed PROMPT w)
  ∧ main w
    = (Return tt, printed "An error occurred: EOF when reading a line" (printed PROMPT w)).
Proof.
  intros Hin.
  assert (Hget : get_token_from_file w = (Raise EOFError, printed PROMPT w)).
  { unfold get_token_from_file; py_unfold. world_simpl. by rewrite Hin. }
  split; [exact Hget|].
  unfold main, try_except. rewrite (bind_run get_token_from_file). by rewrite Hget.
Qed.


(** X23. Whatever is typed and whatever [op] answers, a run of the
    interactive variant calls [requests.post] never, leaves every file but
    [1password_team_users.csv] as it was, and changes no environment
    variable but [OP_SERVICE_ACCOUNT_TOKEN]. *)
Theorem prompt_main_footprint (w : World) :
  posts (main w).2 = posts w
  ∧ (∀ path, path ≠ OUTPUT_CSV → files (main w).2 !! path = files w !! path)
  ∧ (∀ name, name ≠ OP_SERVICE_ACCOUNT_TOKEN →
       environ (main w).2 !! name = environ w !! name).
Proof.
  assert (Hmain : preserves prompt_frame main).
  { unfold main. frame_apply preserves_try_except.
    - frame_apply preserves_bind.
      { intros w0. apply loader_frame_prompt_frame, loader_frame_get_token. }
      intros _. frame_apply preserves_bind.
      { intros w0. apply exporter_frame_prompt_frame.
        apply (exporter_frame_fetch_users w0). }
      intros users w0. apply exporter_frame_prompt_frame.
      apply (exporter_frame_export_to_csv users w0).
    - apply List.Forall_cons; [|apply List.Forall_nil].
      intros e w0. by repeat split. }
  exact (Hmain w).
Qed.

End loader_more.

(** ** The further properties at work on the sample data *)

Section more_examples.
Import Sample.

Lemma exporter_main_only_writes_output_witness :
  "notes.txt" ≠ ExportUsers.OUTPUT_CSV
  ∧ (files (@ExportUsers.main library with_old_export).2) !! "notes.txt" = Some "keep"
  ∧ environ (@ExportUsers.main library with_old_export).2 = environ with_old_export.
Proof.
  assert (Hpath : "notes.txt" ≠ ExportUsers.OUTPUT_CSV) by discriminate.
  destruct (@exporter_main_only_writes_output library with_old_export)
    as (Henv & _ & Hfiles).
  split; [exact Hpath|]. split; [|exact Henv].
  rewrite (Hfiles "notes.txt" Hpath). reflexivity.
Defined.

Lemma export_to_csv_unwritable_witness :
  [alice] ≠ []
  ∧ ExportUsers.OUTPUT_CSV ∈ read_only locked
  ∧ @ExportUsers.export_to_csv library (PyList [alice]) locked
    = (Return tt,
       printed "Error writing to CSV: [Errno 13] Permission denied: '1password_team_users.csv'"
         (printed "Exporting 1 users to 1password_team_users.csv..." locked))
  ∧ files (@ExportUsers.export_to_csv library (PyList [alice]) locked).2 = files locked.
Proof.
  assert (Hne : [alice] ≠ []) by discriminate.
  assert (Hro : ExportUsers.OUTPUT_CSV ∈ read_only locked)
    by (change (ExportUsers.OUTPUT_CSV ∈ ({[ ExportUsers.OUTPUT_CSV ]} : gset string));
        apply elem_of_singleton_2; reflexivity).
  split; [exact Hne|]. split; [exact Hro|].
  apply (@export_to_csv_unwritable library [alice] locked Hne Hro).
Defined.

Lemma export_to_csv_stops_at_bad_record_witness :
  Forall (λ u, is_dict u = true) [alice]
  ∧ is_dict (PyStr "oops") = false
  ∧ (ExportUsers.OUTPUT_CSV ∉ read_only configured)
  ∧ @ExportUsers.export_to_csv library (PyList [alice; PyStr "oops"; bob]) configured
    = (Return tt,
       printed "Error writing to CSV: 'str' object has no attribute 'get'"
         (with_file ExportUsers.OUTPUT_CSV
            ("ID,Email,Name,State" +:+ CRLF +:+ "1,a@x.com,A,ACTIVE" +:+ CRLF)
            (printed "Exporting 3 users to 1password_team_users.csv..." configured))).
Proof.
  assert (Hgood : Forall (λ u, is_dict u = true) [alice]) by repeat constructor.
  assert (Hbad : is_dict (PyStr "oops") = false) by reflexivity.
  assert (Hrw : ExportUsers.OUTPUT_CSV ∉ read_only configured)
    by apply not_elem_of_empty.
  split; [exact Hgood|]. split; [exact Hbad|]. split; [exact Hrw|].
  apply (@export_to_csv_stops_at_bad_record library [alice] (PyStr "oops") [bob]
           configured Hgood Hbad Hrw).
Defined.

Lemma export_to_csv_any_objects_witness :
  [frank] ≠ []
  ∧ Forall (λ u, is_dict u = true) [frank]
  ∧ (ExportUsers.OUTPUT_CSV ∉ read_only configured)
  ∧ (files (@ExportUsers.export_to_csv library (PyList [frank]) configured).2)
      !! ExportUsers.OUTPUT_CSV
    = Some ("ID,Email,Name,State" +:+ CRLF +:+ "6,,,ACTIVE" +:+ CRLF).
Proof.
  assert (Hne : [frank] ≠ []) by discriminate.
  assert (Hall : Forall (λ u, is_dict u = true) [frank]) by repeat constructor.
  assert (Hrw : ExportUsers.OUTPUT_CSV ∉ read_only configured)
    by apply not_elem_of_empty.
  destruct (@export_to_csv_any_objects library [frank] configured Hne Hall Hrw)
    as [Hfiles _].
  split; [exact Hne|]. split; [exact Hall|]. split; [exact Hrw|].
  rewrite Hfiles, lookup_insert_eq. reflexivity.
Defined.

Lemma export_to_csv_raises_only_unsized_witness :
  (PyInt 7 = PyBool true ∨ ∃ z, z ≠ 0 ∧ PyInt 7 = PyInt z)
  ∧ @ExportUsers.export_to_csv library (PyInt 7) bare
    = (Raise (TypeError "object of type 'int' has no len()"), bare).
Proof.
  assert (Hunsized : PyInt 7 = PyBool true ∨ ∃ z, z ≠ 0 ∧ PyInt 7 = PyInt z).
  { right. exists 7. split; [lia|reflexivity]. }
  split; [exact Hunsized|].
  apply (proj2 (@export_to_csv_raises_only_unsized library (PyInt 7) bare) Hunsized).
Defined.

Lemma export_to_csv_twice_witness :
  [alice] ≠ []
  ∧ Forall (λ u, is_dict u = true) [alice]
  ∧ (ExportUsers.OUTPUT_CSV ∉ read_only with_old_export)
  ∧ files ((@ExportUsers.export_to_csv library (PyList [alice]) ;;
            @ExportUsers.export_to_csv library (PyList [alice])) with_old_export).2
    = files (@ExportUsers.export_to_csv library (PyList [alice]) with_old_export).2.
Proof.
  assert (Hne : [alice] ≠ []) by discriminate.
  assert (Hall : Forall (λ u, is_dict u = true) [alice]) by repeat constructor.
  assert (Hrw : ExportUsers.OUTPUT_CSV ∉ read_only with_old_export)
    by apply not_elem_of_empty.
  split; [exact Hne|]. split; [exact Hall|]. split; [exact Hrw|].
  apply (@export_to_csv_twice library [alice] with_old_export Hne Hall Hrw).
Defined.

Lemma exporter_main_exports_witness :
  env_set OP_SERVICE_ACCOUNT_TOKEN with_old_export
  ∧ op_cli with_old_export (environ with_old_export) = Exited 0 alice_json EmptyString
  ∧ @json_loads library alice_json = inr (PyList [alice])
  ∧ [alice] ≠ []
  ∧ Forall (λ u, is_dict u = true) [alice]
  ∧ (ExportUsers.OUTPUT_CSV ∉ read_only with_old_export)
  ∧ (files (@ExportUsers.main library with_old_export).2) !! ExportUsers.OUTPUT_CSV
    = Some ("ID,Email,Name,State" +:+ CRLF +:+ "1,a@x.com,A,ACTIVE" +:+ CRLF)
  ∧ op_calls (@ExportUsers.main library with_old_export).2 = 1%nat.
Proof.
  assert (Hset : env_set OP_SERVICE_ACCOUNT_TOKEN with_old_export) by reflexivity.
  assert (Hop : op_cli with_old_export (environ with_old_export)
                = Exited 0 alice_json EmptyString) by reflexivity.
  assert (Hjs : @json_loads library alice_json = inr (PyList [alice])) by reflexivity.
  assert (Hne : [alice] ≠ []) by discriminate.
  assert (Hall : Forall (λ u, is_dict u = true) [alice]) by repeat constructor.
  assert (Hrw : ExportUsers.OUTPUT_CSV ∉ read_only with_old_export)
    by apply not_elem_of_empty.
  destruct (@exporter_main_exports library with_old_export _ _ [alice]
              Hset Hop Hjs Hne Hall Hrw) as (Hfiles & Hcalls & _).
  split; [exact Hset|]. split; [exact Hop|]. split; [exact Hjs|].
  split; [exact Hne|]. split; [exact Hall|]. split; [exact Hrw|].
  split; [|exact Hcalls].
  rewrite Hfiles, lookup_insert_eq. reflexivity.
Defined.

Lemma count_active_licenses_any_objects_witness :
  Forall (λ u, hashable_state u = true) [alice; gina; dave]
  ∧ LicenseMonitor.count_active_licenses (PyList [alice; gina; dave]) = Return 1.
Proof.
  assert (Hall : Forall (λ u, hashable_state u = true) [alice; gina; dave])
    by repeat constructor.
  split; [exact Hall|].
  apply (proj1 (count_active_licenses_any_objects [alice; gina; dave] Hall)).
Defined.

Lemma count_active_licenses_raises_at_bad_record_witness :
  Forall (λ u, hashable_state u = true) [alice]
  ∧ hashable_state hugo = false
  ∧ LicenseMonitor.count_active_licenses (PyList [alice; hugo; bob])
    = Raise (TypeError "unhashable type: 'list'").
Proof.
  assert (Hall : Forall (λ u, hashable_state u = true) [alice]) by repeat constructor.
  assert (Hbad : hashable_state hugo = false) by reflexivity.
  split; [exact Hall|]. split; [exact Hbad|].
  apply (count_active_licenses_raises_at_bad_record [alice] hugo [bob] Hall Hbad).
Defined.

Lemma count_active_licenses_additive_witness :
  Forall (λ u, hashable_state u = true) [alice; bob]
  ∧ Forall (λ u, hashable_state u = true) [carol]
  ∧ [bob; alice] ≡ₚ [alice; bob]
  ∧ LicenseMonitor.count_active_licenses (PyList [bob; alice])
    = LicenseMonitor.count_active_licenses (PyList [alice; bob]).
Proof.
  assert (H1 : Forall (λ u, hashable_state u = true) [alice; bob]) by repeat constructor.
  assert (H2 : Forall (λ u, hashable_state u = true) [carol]) by repeat constructor.
  assert (Hperm : [bob; alice] ≡ₚ [alice; bob]) by apply perm_swap.
  split; [exact H1|]. split; [exact H2|]. split; [exact Hperm|].
  apply (proj2 (count_active_licenses_additive [alice; bob] [carol] H1 H2) _ Hperm).
Defined.

Lemma send_slack_notification_outcome_witness :
  LicenseMonitor.send_slack_notification (Some "https://hooks.example/T0") 5 3 moved
  = (Return tt,
     printed "Slack notification sent successfully."
       (posted (Some "https://hooks.example/T0")
          (LicenseMonitor.notification_message 5 3) moved)).
Proof.
  destruct (send_slack_notification_outcome (Some "https://hooks.example/T0") 5 3 moved)
    as (line & Hsend & Hline).
  assert (Hsuccess : line = "Slack notification sent successfully.").
  { apply Hline. exists "https://hooks.example/T0", 302, "Found".
    split; [reflexivity|]. split; reflexivity. }
  rewrite Hsend, Hsuccess. reflexivity.
Defined.

Lemma monitor_main_notifies_witness :
  op_cli configured (environ configured) = Exited 0 alice_json EmptyString
  ∧ @json_loads library alice_json = inr (PyList [alice])
  ∧ [alice] ≠ []
  ∧ Forall (λ u, hashable_state u = true) [alice]
  ∧ ∃ line,
      @LicenseMonitor.main library (Some "https://hooks.example/T0") configured
      = (Return tt,
         printed line
           (posted (Some "https://hooks.example/T0")
              (LicenseMonitor.notification_message 1 3000)
              (printed "Used Licenses: 1/3000"
                 (launched (printed "Fetching list of users from 1Password..."
                              configured))))).
Proof.
  assert (Hop : op_cli configured (environ configured) = Exited 0 alice_json EmptyString)
    by reflexivity.
  assert (Hjs : @json_loads library alice_json = inr (PyList [alice])) by reflexivity.
  assert (Hne : [alice] ≠ []) by discriminate.
  assert (Hall : Forall (λ u, hashable_state u = true) [alice]) by repeat constructor.
  split; [exact Hop|]. split; [exact Hjs|]. split; [exact Hne|]. split; [exact Hall|].
  apply (proj1 (@monitor_main_notifies library (Some "https://hooks.example/T0")
                  configured _ _ [alice] Hop Hjs Hne Hall)).
Defined.

Lemma monitor_main_footprint_witness :
  @LicenseMonitor.main library (Some "https://hooks.example/T0") garbled
  = (Raise (JSONDecodeError "Expecting value: line 1 column 1 (char 0)"),
     launched (printed "Fetching list of users from 1Password..." garbled))
  ∧ posts (launched (printed "Fetching list of users from 1Password..." garbled))
    = posts garbled.
Proof.
  assert (Hraise :
    @LicenseMonitor.main library (Some "https://hooks.example/T0") garbled
    = (Raise (JSONDecodeError "Expecting value: line 1 column 1 (char 0)"),
       launched (printed "Fetching list of users from 1Password..." garbled)))
    by reflexivity.
  split; [exact Hraise|].
  destruct (@monitor_main_footprint library (Some "https://hooks.example/T0") garbled)
    as (_ & _ & _ & _ & Hquiet).
  apply (Hquiet _ _ Hraise).
Defined.

Lemma get_token_from_file_footprint_witness :
  "SLACK_WEBHOOK_URL" ≠ OP_SERVICE_ACCOUNT_TOKEN
  ∧ environ (ExportUsersPrompt.get_token_from_file typed_with_note).2
      !! "SLACK_WEBHOOK_URL"
    = Some "https://hooks.example/T0"
  ∧ files (ExportUsersPrompt.get_token_from_file typed_with_note).2
    = files typed_with_note.
Proof.
  assert (Hname : "SLACK_WEBHOOK_URL" ≠ OP_SERVICE_ACCOUNT_TOKEN) by discriminate.
  destruct (get_token_from_file_footprint typed_with_note) as (Hfiles & _ & _ & Henv).
  split; [exact Hname|]. split; [|exact Hfiles].
  rewrite (Henv _ Hname). reflexivity.
Defined.


Lemma prompt_end_of_input_witness :
  stdin bare = []
  ∧ @ExportUsersPrompt.main library bare
    = (Return tt, printed "An error occurred: EOF when reading a line" (printed PROMPT bare)).
Proof.
  assert (Hin : stdin bare = []) by reflexivity.
  split; [exact Hin|].
  apply (proj2 (@prompt_end_of_input library bare Hin)).
Defined.


Lemma prompt_main_footprint_witness :
  "notes.txt" ≠ ExportUsersPrompt.OUTPUT_CSV
  ∧ "SLACK_WEBHOOK_URL" ≠ OP_SERVICE_ACCOUNT_TOKEN
  ∧ (files (@ExportUsersPrompt.main library typed_with_note).2) !! "notes.txt"
    = Some "keep"
  ∧ environ (@ExportUsersPrompt.main library typed_with_note).2 !! "SLACK_WEBHOOK_URL"
    = Some "https://hooks.example/T0".
Proof.
  assert (Hpath : "notes.txt" ≠ ExportUsersPrompt.OUTPUT_CSV) by discriminate.
  assert (Hname : "SLACK_WEBHOOK_URL" ≠ OP_SERVICE_ACCOUNT_TOKEN) by discriminate.
  destruct (@prompt_main_footprint library typed_with_note) as (_ & Hfiles & Henv).
  split; [exact Hpath|]. split; [exact Hname|]. split.
  - rewrite (Hfiles _ Hpath). reflexivity.
  - rewrite (Henv _ Hname). reflexivity.
Defined.

End more_examples.
